(** * mbot: gamified GAD-7 / PHQ-9 screener with situational AI rewording

    A shallow embedding of [gamified_mental_health_bot.py] and of its
    static sibling [mental_health_bot_combined.py], followed by the
    properties of the rewriter ([ai_generate_questions]) and of the
    scoring and classification code.

    Conventions.
    - A Python [str] is a list of Unicode code points ([list N]); [len] is
      [length].  Text outside printable ASCII is written by code point.
    - A Python [int] is a [Z]; list lengths are [nat].
    - [st.session_state] is a finite map from keys to cached outcomes.
    - The remote generation service, Python's string hash and the non-ASCII
      part of [str.lower] are not in the repository: they are the fields of
      a [runtime] record that every definition depending on them takes as an
      argument. *)

From Stdlib Require Import ZArith NArith List Bool Lia String Ascii.
From Stdlib Require Import DecimalString DecimalNat DecimalZ QArith.
From stdpp Require Import base option list gmap.
Import ListNotations.

Local Open Scope Z_scope.

(** ** Python strings *)

Abbreviation pystr := (list N).

(** An ASCII literal as a list of code points. *)
Definition str (s : string) : pystr :=
  List.map N_of_ascii (list_ascii_of_string s).

(** [str(n)] for a length and [str(z)] for an int: decimal, no padding. *)
Definition str_of_nat (n : nat) : pystr :=
  str (NilZero.string_of_uint (Nat.to_uint n)).

Definition str_of_Z (z : Z) : pystr :=
  str (NilZero.string_of_int (Z.to_int z)).

(** [str(b)] inside an f-string. *)
Definition str_of_bool (b : bool) : pystr :=
  if b then str "True" else str "False".

(** [str.isspace] on one code point: the Unicode white space set. *)
Definition py_isspace (c : N) : bool :=
  ((9 <=? c) && (c <=? 13) || (28 <=? c) && (c <=? 32) || (c =? 133)
   || (c =? 160) || (c =? 5760) || (8192 <=? c) && (c <=? 8202)
   || (c =? 8232) || (c =? 8233) || (c =? 8239) || (c =? 8287)
   || (c =? 12288))%N.

Fixpoint lstrip_by (p : N -> bool) (s : pystr) : pystr :=
  match s with
  | [] => []
  | c :: r => if p c then lstrip_by p r else s
  end.

Definition rstrip_by (p : N -> bool) (s : pystr) : pystr :=
  rev (lstrip_by p (rev s)).

(** [s.strip()] *)
Definition strip (s : pystr) : pystr :=
  rstrip_by py_isspace (lstrip_by py_isspace s).

Definition in_chars (chars : pystr) (c : N) : bool :=
  existsb (N.eqb c) chars.

(** [s.lstrip(chars)] and [s.rstrip(chars)] *)
Definition lstrip_chars (chars s : pystr) : pystr :=
  lstrip_by (in_chars chars) s.

Definition rstrip_chars (chars s : pystr) : pystr :=
  rstrip_by (in_chars chars) s.

(** [s.split(sep)] for a one-character separator: empty pieces are kept. *)
Fixpoint split_on (sep : N) (s : pystr) : list pystr :=
  match s with
  | [] => [[]]
  | c :: r =>
      if (c =? sep)%N then [] :: split_on sep r
      else match split_on sep r with
           | h :: t => (c :: h) :: t
           | [] => [[c]]
           end
  end.

Fixpoint starts_with (t s : pystr) : bool :=
  match t, s with
  | [], _ => true
  | _ :: _, [] => false
  | a :: t', b :: s' => (a =? b)%N && starts_with t' s'
  end.

(** [t in s] *)
Fixpoint contains (t s : pystr) : bool :=
  starts_with t s ||
  match s with
  | [] => false
  | _ :: s' => contains t s'
  end.

(** [sep.join(items)] *)
Fixpoint join (sep : pystr) (items : list pystr) : pystr :=
  match items with
  | [] => []
  | [x] => x
  | x :: rest => x ++ sep ++ join sep rest
  end.

(** [s.lower()].  ASCII code points are lowered here; the mapping of a
    code point above 127 is the runtime's Unicode table [ulower], which sees
    the text before and after the code point (Python's rule for a capital
    sigma depends on both) and may produce several code points. *)
Definition lower_cp (ulower : pystr -> N -> pystr -> pystr)
    (before : pystr) (c : N) (after : pystr) : pystr :=
  if (c <? 128)%N then
    [if (65 <=? c)%N && (c <=? 90)%N then (c + 32)%N else c]
  else ulower before c after.

Fixpoint lower_from (ulower : pystr -> N -> pystr -> pystr)
    (before s : pystr) : pystr :=
  match s with
  | [] => []
  | c :: r => lower_cp ulower before c r ++ lower_from ulower (before ++ [c]) r
  end.

Definition lower (ulower : pystr -> N -> pystr -> pystr) (s : pystr) : pystr :=
  lower_from ulower [] s.

(** ** The world of the script

    [meta] is the status dictionary of the rewriter; an [outcome] is the
    pair [(questions, meta)] it returns and caches. *)

Record meta : Type := Meta {
  used_model : option pystr;
  ai_ok : bool;
  reason : pystr
}.

Abbreviation outcome := (list pystr * meta)%type.

(** One chat message and one [chat.completions.create] request.  The
    sampling arguments ([temperature=0.7], [max_tokens=600]) are the same
    constants in every request and are left out. *)
Record message : Type := Message {
  role : pystr;
  content : pystr
}.

Record request : Type := Request {
  req_model : pystr;
  req_messages : list message
}.

(** What a generation call does: it hands back the content of the first
    choice ([None] when the service sent no content), or an exception is
    raised somewhere between the call and the read of that content; the
    exception is kept as its text [str(e)]. *)
Inductive call_result : Type :=
  | Returned (text : option pystr)
  | Raised (e : pystr).

(** The effects of the rewriter that are visible from outside, in order. *)
Inductive event : Type :=
  | EvCreate (r : request) (res : call_result)
  | EvSleep (milliseconds : N).

Record world : Type := World {
  session_state : gmap pystr outcome;
  trace : list event
}.

(** What the repository takes from its environment.  A generation service
    answers a request knowing everything that happened before it, so any
    deterministic behaviour of the service is one value of [new_sdk_create]
    (openai >= 1.x client) or [old_sdk_create] (openai 0.28 module). *)
Record runtime : Type := Runtime {
  hash : pystr -> Z;
  unicode_lower : pystr -> N -> pystr -> pystr;
  USE_NEW_SDK : bool;
  new_sdk_create : list event -> request -> call_result;
  old_sdk_create : list event -> request -> call_result
}.

Definition log_event (e : event) (w : world) : world :=
  World (session_state w) (trace w ++ [e]).

Definition cache_store (k : pystr) (o : outcome) (w : world) : world :=
  World (<[k := o]> (session_state w)) (trace w).

(** ** Scenario-enforcing generation *)

Definition SCENARIO_TRIGGERS : list pystr :=
  [ str "when ";
    str "while ";
    str "before ";
    str "after ";
    str "at work";
    str "in class";
    str "on the bus";
    str "in a meeting";
    str "before bed";
    str "waking up";
    str "after dinner";
    str "during a call";
    str "at home";
    str "with friends";
    str "in public";
    str "on your commute";
    str "during chores";
    str "with family";
    str "on weekends" ].

Definition _looks_situational (E : runtime) (line : pystr) : bool :=
  let s := lower (unicode_lower E) line in
  existsb (fun t => contains t s) SCENARIO_TRIGGERS && contains (str "?") line.

Definition style_rules : pystr :=
  str "Write FRIENDLY, SHORT questions (<= 20 words), each as a REAL-LIFE SITUATION."
  ++ [10%N] ++
  str "Each line must start with a context clause (e.g., 'When" ++ [8230%N]
  ++ str "', 'Before bed" ++ [8230%N] ++ str "', 'At work" ++ [8230%N]
  ++ str "')." ++ [10%N] ++
  str "Avoid clinical/diagnostic words; keep the original meaning. One line per item. No numbering.".

Definition examples : list pystr :=
  [ str "Before bed, do your thoughts spiral about little things?";
    str "At work or school, do small hassles set you on edge?";
    str "When plans change suddenly, do you feel tense or restless?";
    str "With friends, is it hard to enjoy what you used to?";
    str "Waking up, does the day feel heavy to start?" ].

Definition _fewshot_messages (prompt : pystr) (expected : nat)
    (stricter : bool) : list message :=
  let style_rules :=
    if stricter then
      style_rules ++ [10%N] ++
      str "MAKE EVERY LINE SITUATIONAL. If a line is generic, rewrite it with a concrete context."
    else style_rules in
  [ Message (str "system")
      (str "You convert validated screening items into brief, friendly, SITUATION-BASED questions that preserve meaning.");
    Message (str "user")
      ((style_rules ++ [10%N; 10%N] ++ str "Examples (style only):" ++ [10%N]
        ++ str "- ")
       ++ join ([10%N] ++ str "- ") examples
       ++ ([10%N; 10%N] ++ str "Task:" ++ [10%N] ++ prompt ++ [10%N]
           ++ str "Return exactly " ++ str_of_nat expected
           ++ str " lines. No bullets, no numbering, no extra commentary.")) ].

(** The call of one attempt, through whichever SDK was imported. *)
Definition create (E : runtime) (history : list event) (r : request)
    : call_result :=
  if USE_NEW_SDK E then new_sdk_create E history r
  else old_sdk_create E history r.

(** The characters dropped from the front of each line:
    digits, [.], [)], [-], en dash, em dash, space, bullet. *)
Definition list_marker_chars : pystr :=
  str "0123456789.)-" ++ [8211%N; 8212%N] ++ str " " ++ [8226%N].

(** Line 118: the non-blank lines of a reply, stripped. *)
Definition reply_lines (text : pystr) : list pystr :=
  List.map strip
    (List.filter (fun ln => negb (Nat.eqb (length (strip ln)) 0))
       (split_on 10%N text)).

(** Line 119: list markers removed. *)
Definition cleaned_lines (text : pystr) : list pystr :=
  List.map (fun ln => strip (lstrip_chars list_marker_chars ln))
    (reply_lines text).

(** Line 120: the cleaned lines that count as scenario lines. *)
Definition scenario_lines (E : runtime) (text : pystr) : list pystr :=
  List.filter (fun q => Nat.ltb 10 (length q) && _looks_situational E q)
    (cleaned_lines text).

(** Lines 110 and 116: [(content or "").strip()] *)
Definition reply_text (text : option pystr) : pystr :=
  strip (match text with Some t => t | None => [] end).

(** How one pass through the body of the inner loop ends: the function
    returns, or the loop goes on with a new [meta]. *)
Inductive step_result : Type :=
  | Return (o : outcome)
  | Next (m : meta).

(** Lines 103-133: one attempt with one model in one mode. *)
Definition attempt (E : runtime) (prompt : pystr) (expected : nat)
    (cache_key : pystr) (model_name : pystr) (strict : bool) (w : world)
    : step_result * world :=
  let r := Request model_name (_fewshot_messages prompt expected strict) in
  let res := create E (trace w) r in
  let w := log_event (EvCreate r res) w in
  match res with
  | Raised e =>
      (Next (Meta (Some model_name) false (str "error: " ++ e)), w)
  | Returned text =>
      let content := reply_text text in
      let questions := firstn expected (scenario_lines E content) in
      if Nat.eqb (length questions) expected then
        let meta :=
          Meta (Some model_name) true
            (str "scenario-ok (strict=" ++ str_of_bool strict ++ str ")") in
        (Return (questions, meta), cache_store cache_key (questions, meta) w)
      else
        let meta :=
          Meta (Some model_name) false
            (str "got " ++ str_of_nat (length questions)
             ++ str " valid scenario lines (strict=" ++ str_of_bool strict
             ++ str ")") in
        (Next meta, log_event (EvSleep 200) w)
  end.

(** [for strict in (False, True)] *)
Fixpoint strict_loop (E : runtime) (prompt : pystr) (expected : nat)
    (cache_key model_name : pystr) (modes : list bool) (m : meta) (w : world)
    : step_result * world :=
  match modes with
  | [] => (Next m, w)
  | strict :: rest =>
      match attempt E prompt expected cache_key model_name strict w with
      | (Return o, w') => (Return o, w')
      | (Next m', w') =>
          strict_loop E prompt expected cache_key model_name rest m' w'
      end
  end.

(** [for model_name in models] *)
Fixpoint model_loop (E : runtime) (prompt : pystr) (expected : nat)
    (cache_key : pystr) (models : list pystr) (m : meta) (w : world)
    : step_result * world :=
  match models with
  | [] => (Next m, w)
  | model_name :: rest =>
      match strict_loop E prompt expected cache_key model_name
              [false; true] m w with
      | (Return o, w') => (Return o, w')
      | (Next m', w') => model_loop E prompt expected cache_key rest m' w'
      end
  end.

Definition default_models : list pystr :=
  [ str "gpt-4.1-nano"; str "gpt-4o-mini"; str "gpt-3.5-turbo" ].

(** [model_candidates or [...]]: [None] and the empty list both give the
    default list. *)
Definition models_of (model_candidates : option (list pystr)) : list pystr :=
  match model_candidates with
  | Some (m :: rest) => m :: rest
  | _ => default_models
  end.

(** [f"ai_q::{hash(prompt)}::{expected}"] *)
Definition cache_key_of (E : runtime) (prompt : pystr) (expected : nat)
    : pystr :=
  str "ai_q::" ++ str_of_Z (hash E prompt) ++ str "::" ++ str_of_nat expected.

(** Line 138: a default question, patched when it is not situational. *)
Definition fix_default (E : runtime) (q : pystr) : pystr :=
  if _looks_situational E q then q
  else str "When you think about your day, " ++ rstrip_chars (str "?") q
       ++ str "?".

Definition ai_generate_questions (E : runtime) (prompt : pystr)
    (defaults : list pystr) (model_candidates : option (list pystr))
    (force_refresh : bool) (w : world) : outcome * world :=
  let expected := length defaults in
  let models := models_of model_candidates in
  let cache_key := cache_key_of E prompt expected in
  match (if force_refresh then None else session_state w !! cache_key) with
  | Some cached => (cached, w)
  | None =>
      let meta := Meta None false (str "not attempted") in
      match model_loop E prompt expected cache_key models meta w with
      | (Return o, w') => (o, w')
      | (Next meta, w') =>
          let fixed_defaults := List.map (fix_default E) defaults in
          let result := (fixed_defaults, meta) in
          (result, cache_store cache_key result w')
      end
  end.

(** ** Scoring

    [score_map] keeps the order of the dictionary, which is the order of the
    slider options.  [select_slider label key] is the answer the page hands
    back for the slider with that label and widget key. *)

Definition score_map : list (pystr * Z) :=
  [ ([128516%N] ++ str " Not at all", 0);
    ([128578%N] ++ str " Several days", 1);
    ([128528%N] ++ str " More than half the days", 2);
    ([128543%N] ++ str " Nearly every day", 3) ].

Definition emoji_options : list pystr := List.map fst score_map.

(** [score_map[response]]; [None] stands for [KeyError]. *)
Definition score_map_get (response : pystr) : option Z :=
  match List.find (fun kv => bool_decide (fst kv = response)) score_map with
  | Some kv => Some (snd kv)
  | None => None
  end.

(** [for i, q in enumerate(questions): score += score_map[select_slider(...)]]
    with the widget key prefix ([gad_] or [phq_]) as [prefix]. *)
Fixpoint score_loop (select_slider : pystr -> pystr -> pystr) (prefix : pystr)
    (i : nat) (questions : list pystr) (score : Z) : option Z :=
  match questions with
  | [] => Some score
  | q :: rest =>
      let response :=
        select_slider (str_of_nat (i + 1) ++ str ". " ++ q)
                      (prefix ++ str_of_nat i) in
      match score_map_get response with
      | None => None
      | Some points =>
          score_loop select_slider prefix (S i) rest (score + points)
      end
  end.

Definition screener_score (select_slider : pystr -> pystr -> pystr)
    (prefix : pystr) (questions : list pystr) : option Z :=
  score_loop select_slider prefix 0 questions 0.

(** ** Results and badge

    A result is the Streamlit call that shows it ([st.success], [st.info],
    [st.warning], [st.error]) and its text. *)

Inductive alert : Type := Success | Info | Warning | Error.

Abbreviation panel := (alert * pystr)%type.

Module Gamified.

Definition gad_prompt : pystr :=
  str "Rewrite the 7 GAD-7 items as CONCRETE, REAL-LIFE SITUATIONS. Each line must start with a context like 'At work"
  ++ [8230%N] ++ str "', 'Before bed" ++ [8230%N] ++ str "', 'In public"
  ++ [8230%N] ++ str "', 'With friends" ++ [8230%N] ++ str "', 'During class"
  ++ [8230%N] ++ str "', 'On your commute" ++ [8230%N]
  ++ str "'. Keep meaning; " ++ [8804%N]
  ++ str "20 words; one line per item.".

Definition gad_defaults : list pystr :=
  [ str "You" ++ [8217%N] ++ str "re at work or school and feel your chest tighten. How often does that happen?";
    str "You worry even when everything seems fine. How often does this happen?";
    str "You stay up late thinking about the worst that could happen. How often is this true?";
    str "You notice your muscles tensing or struggle to relax. How often do you feel that?";
    str "You fidget a lot or can" ++ [8217%N] ++ str "t sit still. How frequently does this affect you?";
    str "You snap at small things more than usual. How often is this true?";
    str "You avoid plans or places out of worry. How often do you do that?" ].

Definition phq_prompt : pystr :=
  str "Rewrite the 9 PHQ-9 items as CONCRETE, REAL-LIFE SITUATIONS. Each line must start with a context like 'Waking up"
  ++ [8230%N] ++ str "', 'When plans fall through" ++ [8230%N]
  ++ str "', 'On weekends" ++ [8230%N] ++ str "', 'During chores"
  ++ [8230%N] ++ str "', 'While studying" ++ [8230%N]
  ++ str "', 'With family" ++ [8230%N] ++ str "'. Keep meaning; "
  ++ [8804%N] ++ str "20 words; one line per item.".

Definition phq_defaults : list pystr :=
  [ str "You used to enjoy certain things" ++ [8212%N] ++ str "how interested are you in them lately?";
    str "Do mornings feel heavy, like starting the day takes extra effort?";
    str "Has your sleep been off" ++ [8212%N] ++ str "too much or too little?";
    str "How often do you feel tired or low on energy?";
    str "Has your appetite changed" ++ [8212%N] ++ str "eating more or less than usual?";
    str "Do you find yourself feeling guilty or putting yourself down more often?";
    str "Is it harder to focus on reading, shows, or conversations?";
    str "Have you felt slowed down or, the opposite, unusually restless?";
    str "Have you had thoughts that life isn" ++ [8217%N] ++ str "t worth it or that you" ++ [8217%N] ++ str "d be better off gone?" ].

(** Lines 195-205 and 227-237: the questions come from the rewriter, the
    score from the sliders; [regen] is the Regenerate button. *)
Definition gad_score (E : runtime) (regen : bool)
    (select_slider : pystr -> pystr -> pystr) (w : world)
    : option Z * world :=
  let '((gad_questions, gad_meta), w') :=
    ai_generate_questions E gad_prompt gad_defaults None regen w in
  (screener_score select_slider (str "gad_") gad_questions, w').

Definition phq_score (E : runtime) (regen : bool)
    (select_slider : pystr -> pystr -> pystr) (w : world)
    : option Z * world :=
  let '((phq_questions, phq_meta), w') :=
    ai_generate_questions E phq_prompt phq_defaults None regen w in
  (screener_score select_slider (str "phq_") phq_questions, w').

Definition gad_result (gad_score : Z) : panel :=
  if gad_score <=? 4 then (Success, str "Minimal anxiety")
  else if gad_score <=? 9 then (Info, str "Mild anxiety")
  else if gad_score <=? 14 then
    (Warning, str "Moderate anxiety " ++ [8212%N]
              ++ str " consider professional support.")
  else (Error, str "Severe anxiety " ++ [8212%N] ++ str " please seek help.").

Definition phq_result (phq_score : Z) : panel :=
  if phq_score <=? 4 then (Success, str "Minimal depression")
  else if phq_score <=? 9 then (Info, str "Mild depression")
  else if phq_score <=? 14 then
    (Warning, str "Moderate depression " ++ [8212%N] ++ str " consider support.")
  else if phq_score <=? 19 then
    (Warning, str "Moderately severe depression " ++ [8212%N]
              ++ str " therapy recommended.")
  else (Error, str "Severe depression " ++ [8212%N]
               ++ str " seek help immediately.").

Definition mindful_mover : panel :=
  (Success, [9989%N] ++ str " **Mindful Mover Badge** " ++ [8212%N]
            ++ str " keep up the self-care!").

Definition resilience_builder : panel :=
  (Warning, [127793%N] ++ str " **Resilience Builder Badge** " ++ [8212%N]
            ++ str " you" ++ [8217%N] ++ str "re showing strength.").

Definition courageous_warrior : panel :=
  (Error, [128737%N; 65039%N] ++ str " **Courageous Warrior Badge** "
          ++ [8212%N] ++ str " you" ++ [8217%N]
          ++ str "re fighting hard. Please talk to someone.").

Definition badge (phq_score gad_score : Z) : panel :=
  if (phq_score <? 10) && (gad_score <? 10) then mindful_mover
  else if ((10 <=? phq_score) && (phq_score <? 15))
          || ((10 <=? gad_score) && (gad_score <? 15))
  then resilience_builder
  else courageous_warrior.

End Gamified.

Module Combined.

Definition gad_questions : list pystr :=
  [ str "You're at work or school and feel your chest tighten for no reason. How often does this happen?";
    str "You find yourself unable to stop worrying even when things are okay. How often do you feel this way?";
    str "You lie awake at night thinking about worst-case scenarios. How often does this keep you up?";
    str "You feel tension in your muscles or find it hard to relax during the day. How often is this true?";
    str "You fidget, tap your foot, or can" ++ [8217%N] ++ str "t sit still for long. How often does restlessness affect you?";
    str "You notice you" ++ [8217%N] ++ str "re more irritable than usual, snapping at small things. How often is this noticeable?";
    str "You avoid certain situations or people out of fear that something bad might happen. How often do you avoid things out of worry?" ].

Definition phq_questions : list pystr :=
  [ str "You" ++ [8217%N] ++ str "ve been invited to a dinner with friends. You used to love this. How interested are you in going?";
    str "You wake up feeling low. How hard is it to get out of bed and start your day?";
    str "You find yourself sleeping too much or struggling to fall asleep. How often is this happening?";
    str "Tasks feel heavy, even small ones. How often do you feel physically tired or without energy?";
    str "You skip meals or eat more than usual. How often is your appetite affected?";
    str "You feel like you're letting others down or that you're not good enough. How often do these thoughts occur?";
    str "You struggle to focus on reading, shows, or conversations. How often do you lose concentration?";
    str "People comment that you're moving or speaking differently" ++ [8212%N] ++ str "either too slow or restless. How often do you notice this?";
    str "You have thoughts that the world would be better off without you. How often do they appear?" ].

Definition gad_score (select_slider : pystr -> pystr -> pystr) : option Z :=
  screener_score select_slider (str "gad_") gad_questions.

Definition phq_score (select_slider : pystr -> pystr -> pystr) : option Z :=
  screener_score select_slider (str "phq_") phq_questions.

Definition gad_result (gad_score : Z) : panel :=
  if gad_score <=? 4 then (Success, str "Minimal anxiety")
  else if gad_score <=? 9 then (Info, str "Mild anxiety")
  else if gad_score <=? 14 then
    (Warning, str "Moderate anxiety " ++ [8211%N]
              ++ str " consider professional support.")
  else (Error, str "Severe anxiety " ++ [8211%N] ++ str " please seek help.").

Definition phq_result (phq_score : Z) : panel :=
  if phq_score <=? 4 then (Success, str "Minimal depression")
  else if phq_score <=? 9 then (Info, str "Mild depression")
  else if phq_score <=? 14 then
    (Warning, str "Moderate depression " ++ [8211%N] ++ str " consider support.")
  else if phq_score <=? 19 then
    (Warning, str "Moderately severe depression " ++ [8211%N]
              ++ str " therapy recommended.")
  else (Error, str "Severe depression " ++ [8211%N]
               ++ str " seek help immediately.").

Definition mindful_mover : panel :=
  (Success, [9989%N] ++ str " **Mindful Mover Badge** " ++ [8211%N]
            ++ str " Keep up the self-care!").

Definition resilience_builder : panel :=
  (Warning, [127793%N] ++ str " **Resilience Builder Badge** " ++ [8211%N]
            ++ str " You" ++ [8217%N] ++ str "re showing strength.").

Definition courageous_warrior : panel :=
  (Error, [128737%N; 65039%N] ++ str " **Courageous Warrior Badge** "
          ++ [8211%N] ++ str " You're fighting hard. Please talk to someone.").

Definition badge (phq_score gad_score : Z) : panel :=
  if (phq_score <? 10) && (gad_score <? 10) then mindful_mover
  else if ((10 <=? phq_score) && (phq_score <? 15))
          || ((10 <=? gad_score) && (gad_score <? 15))
  then resilience_builder
  else courageous_warrior.

End Combined.

(** ** Vocabulary of the properties *)

(** The structural constraint on a question, spelled out: a question mark
    and at least one marker token of the vocabulary in the lowered text. *)
Definition situational (E : runtime) (q : pystr) : Prop :=
  contains (str "?") q = true /\
  exists t, In t SCENARIO_TRIGGERS /\
            contains t (lower (unicode_lower E) q) = true.

(** An outcome fit for a battery of [n] items. *)
Definition good_outcome (E : runtime) (n : nat) (o : outcome) : Prop :=
  length (fst o) = n /\ Forall (situational E) (fst o).

(** Every entry of the session under a rewriter key is fit for the item
    count of that key: what holds when only the rewriter writes there. *)
Definition cache_ok (E : runtime) (w : world) : Prop :=
  forall prompt n o,
    session_state w !! cache_key_of E prompt n = Some o -> good_outcome E n o.

(** The generation calls of a trace, in order. *)
Fixpoint calls (evs : list event) : list (request * call_result) :=
  match evs with
  | [] => []
  | EvCreate r res :: rest => (r, res) :: calls rest
  | EvSleep _ :: rest => calls rest
  end.

(** The back-offs of a trace, in order. *)
Fixpoint sleeps (evs : list event) : list N :=
  match evs with
  | [] => []
  | EvCreate _ _ :: rest => sleeps rest
  | EvSleep ms :: rest => ms :: sleeps rest
  end.

(** A reply is accepted when it came back and has enough scenario lines. *)
Definition accepted (E : runtime) (expected : nat) (res : call_result) : bool :=
  match res with
  | Returned text =>
      Nat.leb expected (length (scenario_lines E (reply_text text)))
  | Raised _ => false
  end.

(** The attempts in the order of the two loops: each model in normal mode,
    then in strict mode. *)
Definition schedule (models : list pystr) : list (pystr * bool) :=
  flat_map (fun model_name => [(model_name, false); (model_name, true)]) models.

Definition request_of (prompt : pystr) (expected : nat) (a : pystr * bool)
    : request :=
  Request (fst a) (_fewshot_messages prompt expected (snd a)).

(** What an accepted reply of attempt [a] is turned into. *)
Definition accepted_outcome (E : runtime) (expected : nat) (a : pystr * bool)
    (res : call_result) : outcome :=
  match res with
  | Returned text =>
      (firstn expected (scenario_lines E (reply_text text)),
       Meta (Some (fst a)) true
         (str "scenario-ok (strict=" ++ str_of_bool (snd a) ++ str ")"))
  | Raised _ => ([], Meta None false [])
  end.

(** The inner and outer loop as one loop over the schedule. *)
Fixpoint run_schedule (E : runtime) (prompt : pystr) (expected : nat)
    (cache_key : pystr) (sched : list (pystr * bool)) (m : meta) (w : world)
    : step_result * world :=
  match sched with
  | [] => (Next m, w)
  | a :: rest =>
      match attempt E prompt expected cache_key (fst a) (snd a) w with
      | (Return o, w') => (Return o, w')
      | (Next m', w') => run_schedule E prompt expected cache_key rest m' w'
      end
  end.

Definition rejected_call (E : runtime) (expected : nat)
    (c : request * call_result) : Prop :=
  accepted E expected (snd c) = false.

(** What a rejected attempt leaves in the trace after its call: the
    back-off of line 130 when the reply came back, nothing when the call
    raised (lines 131-133). *)
Definition backoff_of (res : call_result) : list event :=
  match res with
  | Returned _ => [EvSleep 200]
  | Raised _ => []
  end.

(** The new events [evs] of a run that stopped at its first accepted
    attempt: the calls follow the schedule up to some attempt [a], every
    call before it was rejected or raised, the reply to [a] was accepted and
    became the outcome [o]. *)
Definition stopped_at_first_accepted (E : runtime) (prompt : pystr)
    (expected : nat) (sched : list (pystr * bool)) (evs : list event)
    (o : outcome) : Prop :=
  exists pre a post before res,
    sched = pre ++ a :: post /\
    calls evs = before ++ [(request_of prompt expected a, res)] /\
    List.map fst before = List.map (request_of prompt expected) pre /\
    Forall (rejected_call E expected) before /\
    accepted E expected res = true /\
    o = accepted_outcome E expected a res.

(** The new events [evs] of a run that went through the whole schedule
    without an accepted attempt. *)
Definition exhausted (E : runtime) (prompt : pystr) (expected : nat)
    (sched : list (pystr * bool)) (evs : list event) : Prop :=
  List.map fst (calls evs) = List.map (request_of prompt expected) sched /\
  Forall (rejected_call E expected) (calls evs).

(** Severity bands as inclusive score ranges, from the thresholds of the
    result chains and the maximal scores 21 and 27. *)
Definition anxiety_bands : list (Z * Z) :=
  [ (0, 4); (5, 9); (10, 14); (15, 21) ].

Definition depression_bands : list (Z * Z) :=
  [ (0, 4); (5, 9); (10, 14); (15, 19); (20, 27) ].

Definition in_band (b : Z * Z) (score : Z) : Prop :=
  fst b <= score <= snd b.

(** Bands that start at [lo], end at [hi] and leave no gap. *)
Fixpoint contiguous (lo hi : Z) (bands : list (Z * Z)) : Prop :=
  match bands with
  | [] => False
  | [b] => fst b = lo /\ lo <= snd b /\ snd b = hi
  | b :: rest => fst b = lo /\ lo <= snd b /\ contiguous (snd b + 1) hi rest
  end.

(** ** Sample environments *)

(** A hash for examples: the sum of the code points. *)
Definition sample_hash (s : pystr) : Z :=
  Z.of_N (fold_right N.add 0%N s).

(** A service whose every call raises. *)
Definition failing_runtime : runtime :=
  Runtime sample_hash (fun _ c _ => [c]) true
    (fun _ _ => Raised (str "rate limit"))
    (fun _ _ => Raised (str "rate limit")).

(** A service that answers every call with no content. *)
Definition silent_runtime : runtime :=
  Runtime sample_hash (fun _ c _ => [c]) false
    (fun _ _ => Returned None)
    (fun _ _ => Returned None).

(** A service that always sends these two lines. *)
Definition two_line_reply : pystr :=
  str "When you wake up, do you feel tense?" ++ [10%N]
  ++ str "At home, is it hard to relax?".

Definition chatty_runtime : runtime :=
  Runtime sample_hash (fun _ c _ => [c]) true
    (fun _ _ => Returned (Some two_line_reply))
    (fun _ _ => Returned (Some two_line_reply)).

Definition empty_world : world := World (empty : gmap pystr outcome) [].

(** A page on which every slider stays on its first option. *)
Definition first_option (label key : pystr) : pystr :=
  [128516%N] ++ str " Not at all".

(** ** Further vocabulary *)

(** The [meta] that a failed attempt [a] leaves behind (lines 128-129 for a
    rejected reply, line 132 for a raised call). *)
Definition failure_meta (E : runtime) (expected : nat) (a : pystr * bool)
    (res : call_result) : meta :=
  match res with
  | Returned text =>
      Meta (Some (fst a)) false
        (str "got "
         ++ str_of_nat
              (length (firstn expected (scenario_lines E (reply_text text))))
         ++ str " valid scenario lines (strict=" ++ str_of_bool (snd a)
         ++ str ")")
  | Raised e => Meta (Some (fst a)) false (str "error: " ++ e)
  end.


(** The answers the page hands back for a battery, in question order, as
    [score_loop] asks for them. *)
Fixpoint answers (select_slider : pystr -> pystr -> pystr) (prefix : pystr)
    (i : nat) (questions : list pystr) : list pystr :=
  match questions with
  | [] => []
  | q :: rest =>
      select_slider (str_of_nat (i + 1) ++ str ". " ++ q)
                    (prefix ++ str_of_nat i)
      :: answers select_slider prefix (S i) rest
  end.

(** The points of a list of answers, [None] at the first answer that is
    not a key of [score_map]. *)
Fixpoint points_sum (responses : list pystr) : option Z :=
  match responses with
  | [] => Some 0
  | r :: rest =>
      match score_map_get r, points_sum rest with
      | Some p, Some s => Some (p + s)
      | _, _ => None
      end
  end.

(** How alarming a panel is, by the Streamlit call that shows it. *)
Definition urgency (a : alert) : nat :=
  match a with
  | Success => 0
  | Info => 1
  | Warning => 2
  | Error => 3
  end.

(** ** Mood check and coping suggestions

    The select box, the dictionary of tips and what the page shows for the
    chosen emotion: nothing for the placeholder, else a subheader and one
    bullet per tip.  [None] stands for the [KeyError] of
    [suggestions[emotion]]. *)

Definition emotion_options : list pystr :=
  [ str "Select..."; str "Anxious"; str "Depressed"; str "Stressed";
    str "Overwhelmed"; str "Angry"; str "Sad"; str "Can't Sleep" ].

Definition lookup_tips (suggestions : list (pystr * list pystr))
    (emotion : pystr) : option (list pystr) :=
  match List.find (fun kv => bool_decide (fst kv = emotion)) suggestions with
  | Some kv => Some (snd kv)
  | None => None
  end.

Definition coping_panel (suggestions : list (pystr * list pystr))
    (emotion : pystr) : option (list pystr) :=
  if bool_decide (emotion <> str "Select...") then
    match lookup_tips suggestions emotion with
    | Some tips =>
        Some (([128161%N] ++ str " Coping Suggestions")
              :: List.map (fun tip => str "- " ++ tip) tips)
    | None => None
    end
  else Some [].

Module GamifiedPage.

Definition suggestions : list (pystr * list pystr) :=
  [ (str "Anxious",
     [str "5-4-3-2-1 grounding"; str "2-min deep breathing"; str "Walk outside"]);
    (str "Depressed",
     [str "Drink water"; str "Text a friend"; str "Break 1 task into a tiny step"]);
    (str "Stressed",
     [str "Body-scan meditation"; str "Gratitude note"; str "Unplug for 5 minutes"]);
    (str "Overwhelmed",
     [str "Prioritize one thing"; str "Quick todo list"; str "3-min quiet break"]);
    (str "Angry",
     [str "10 jumping jacks"; str "Hold something cold"; str "Write an unsent note"]);
    (str "Sad",
     [str "Comfort content"; str "Cuddle pet/pillow"; str "Let yourself cry"]);
    (str "Can't Sleep",
     [str "Sleep sounds"; str "No screens"; str "Progressive muscle relaxation"]) ].

(** Lines 195 and 227: the two calls of the rewriter in one run of the
    page, the anxiety battery first; [regen] is the Regenerate button. *)
Definition questions (E : runtime) (regen : bool) (w : world)
    : (outcome * outcome) * world :=
  let '(gad, w1) :=
    ai_generate_questions E Gamified.gad_prompt Gamified.gad_defaults None
      regen w in
  let '(phq, w2) :=
    ai_generate_questions E Gamified.phq_prompt Gamified.phq_defaults None
      regen w1 in
  ((gad, phq), w2).

End GamifiedPage.

Module CombinedPage.

Definition suggestions : list (pystr * list pystr) :=
  [ (str "Anxious",
     [str "5-4-3-2-1 grounding"; str "2 min deep breathing"; str "Walk outside"]);
    (str "Depressed",
     [str "Drink water"; str "Text a friend"; str "Break 1 task into small step"]);
    (str "Stressed",
     [str "Body scan meditation"; str "Gratitude journaling"; str "Unplug 5 min"]);
    (str "Overwhelmed",
     [str "Prioritize 1 thing"; str "Write a quick list"; str "3-min quiet break"]);
    (str "Angry",
     [str "Jumping jacks"; str "Hold something cold"; str "Unsent letter exercise"]);
    (str "Sad",
     [str "Watch comfort content"; str "Cuddle pet/pillow"; str "Cry if you want to"]);
    (str "Can't Sleep",
     [str "Sleep sounds"; str "No screens"; str "Progressive muscle relaxation"]) ].

End CombinedPage.

(** ** Progress bar

    [total_possible = 21 + 27] and [user_score = gad_score + phq_score] in
    both scripts; the value handed to [st.progress] is their quotient, kept
    here as the exact fraction. *)




(** * Properties *)

(** ** Scoring and classification *)

Lemma score_map_get_option (response : pystr) :
  In response emoji_options ->
  exists points, score_map_get response = Some points /\ 0 <= points <= 3.
Proof.
  unfold emoji_options; cbn [List.map score_map fst].
  intros [H | [H | [H | [H | []]]]]; subst response;
    eexists; (split; [vm_compute; reflexivity | lia]).
Qed.

Lemma score_loop_bounds (select_slider : pystr -> pystr -> pystr)
    (prefix : pystr) (questions : list pystr) :
  (forall label key, In (select_slider label key) emoji_options) ->
  forall (i : nat) (score : Z),
  exists total,
    score_loop select_slider prefix i questions score = Some total /\
    score <= total <= score + 3 * Z.of_nat (length questions).
Proof.
  intros Hvalid.
  induction questions as [| q rest IH]; intros i score; cbn [score_loop length].
  - exists score. split; [reflexivity | lia].
  - destruct (score_map_get_option _ (Hvalid (str_of_nat (i + 1) ++ str ". " ++ q)
                                             (prefix ++ str_of_nat i)))
      as (points & -> & Hpoints).
    destruct (IH (S i) (score + points)) as (total & Htotal & Hb).
    exists total. split; [exact Htotal | lia].
Qed.

Lemma screener_score_bounds (select_slider : pystr -> pystr -> pystr)
    (prefix : pystr) (questions : list pystr) :
  (forall label key, In (select_slider label key) emoji_options) ->
  exists total,
    screener_score select_slider prefix questions = Some total /\
    0 <= total <= 3 * Z.of_nat (length questions).
Proof.
  intros Hvalid.
  destruct (score_loop_bounds select_slider prefix questions Hvalid 0%nat 0)
    as (total & Htotal & Hb).
  exists total. split; [exact Htotal | lia].
Qed.

(** Deciding a score against the thresholds of a result chain. *)
Ltac score_cases :=
  repeat match goal with
    | |- context [ ?a <=? ?b ] => destruct (Z.leb_spec a b)
    | |- context [ ?a <? ?b ] => destruct (Z.ltb_spec a b)
    | H : context [ ?a <=? ?b ] |- _ => destruct (Z.leb_spec a b)
    | H : context [ ?a <? ?b ] |- _ => destruct (Z.ltb_spec a b)
    end.

(** C7.  In both scripts the badge is decided in priority order: Mindful
    Mover exactly when both scores are below 10; otherwise Resilience
    Builder exactly when a score lies in [10,15); otherwise Courageous
    Warrior.  Every pair of scores gets exactly one of the three, and
    depression 12 with anxiety 8 gets Resilience Builder. *)
Theorem C7_badge_tiers (phq_score gad_score : Z) :
  let low := phq_score < 10 /\ gad_score < 10 in
  let mid := 10 <= phq_score < 15 \/ 10 <= gad_score < 15 in
  (Gamified.badge phq_score gad_score = Gamified.mindful_mover <-> low) /\
  (Gamified.badge phq_score gad_score = Gamified.resilience_builder
     <-> ~ low /\ mid) /\
  (Gamified.badge phq_score gad_score = Gamified.courageous_warrior
     <-> ~ low /\ ~ mid) /\
  (Combined.badge phq_score gad_score = Combined.mindful_mover <-> low) /\
  (Combined.badge phq_score gad_score = Combined.resilience_builder
     <-> ~ low /\ mid) /\
  (Combined.badge phq_score gad_score = Combined.courageous_warrior
     <-> ~ low /\ ~ mid) /\
  Gamified.badge 12 8 = Gamified.resilience_builder /\
  Combined.badge 12 8 = Combined.resilience_builder.
Proof.
  cbv zeta.
  unfold Gamified.badge, Combined.badge.
  repeat split; try reflexivity; try intros H;
    score_cases; cbn [andb orb] in *;
    try reflexivity; try lia; try discriminate H.
Qed.

Lemma band_unique (bands : list (Z * Z)) (lo hi score : Z) :
  contiguous lo hi bands ->
  lo <= score <= hi ->
  exists b, In b bands /\ in_band b score /\
            forall b', In b' bands -> in_band b' score -> b' = b.
Proof.
  revert lo.
  induction bands as [| b rest IH]; intros lo Hc Hs; [destruct Hc |].
  destruct rest as [| b2 rest].
  - destruct Hc as (Hlo & Hle & Hhi).
    exists b. repeat split; [left; reflexivity | lia | lia |].
    intros b' [<- | []] _. reflexivity.
  - destruct Hc as (Hlo & Hle & Hc).
    destruct (Z_le_gt_dec score (snd b)) as [Hin | Hout].
    + exists b. repeat split; [left; reflexivity | lia | lia |].
      intros b' [<- | Hb'] Hin'; [reflexivity |].
      exfalso.
      assert (Hge : forall l h bs c, contiguous l h bs -> In c bs -> l <= fst c).
      { clear. intros l h bs. revert l.
        induction bs as [| x xs IHxs]; intros l c Hc Hin; [destruct Hc |].
        destruct xs as [| y ys].
        - destruct Hin as [<- | []]. destruct Hc as (-> & _). lia.
        - destruct Hc as (Hl & Hle & Hc). destruct Hin as [<- | Hin]; [lia |].
          specialize (IHxs _ _ Hc Hin). lia. }
      specialize (Hge _ _ _ _ Hc Hb'). unfold in_band in Hin'. lia.
    + destruct (IH (snd b + 1) Hc) as (c & Hc1 & Hc2 & Hc3); [lia |].
      exists c. repeat split; [right; exact Hc1 | apply Hc2 | apply Hc2 |].
      intros b' [<- | Hb'] Hin'; [unfold in_band in Hin'; lia |].
      apply Hc3; assumption.
Qed.

Ltac band_cases :=
  unfold in_band; cbn [fst snd];
  unfold Gamified.gad_result, Gamified.phq_result,
         Combined.gad_result, Combined.phq_result;
  split; intros H; score_cases; try lia; try reflexivity;
  try (exfalso; vm_compute in H; discriminate H).

(** C8.  Severity classification is a function of the score that puts every
    anxiety score in [0,21] and every depression score in [0,27] in exactly
    one band; the bands are contiguous with ascending upper bounds
    (4, 9, 14, 21 and 4, 9, 14, 19, 27), and the label shown tells the bands
    apart.  Anxiety score 0 shows Minimal anxiety; anxiety score 21
    shows Severe anxiety, followed in the same message by the advice to
    seek help. *)
Theorem C8_severity_bands :
  contiguous 0 21 anxiety_bands /\
  contiguous 0 27 depression_bands /\
  (forall score, 0 <= score <= 21 ->
     exists b, In b anxiety_bands /\ in_band b score /\
       (forall b', In b' anxiety_bands -> in_band b' score -> b' = b) /\
       (forall score', 0 <= score' <= 21 ->
          (Gamified.gad_result score' = Gamified.gad_result score
             <-> in_band b score') /\
          (Combined.gad_result score' = Combined.gad_result score
             <-> in_band b score'))) /\
  (forall score, 0 <= score <= 27 ->
     exists b, In b depression_bands /\ in_band b score /\
       (forall b', In b' depression_bands -> in_band b' score -> b' = b) /\
       (forall score', 0 <= score' <= 27 ->
          (Gamified.phq_result score' = Gamified.phq_result score
             <-> in_band b score') /\
          (Combined.phq_result score' = Combined.phq_result score
             <-> in_band b score'))) /\
  Gamified.gad_result 0 = (Success, str "Minimal anxiety") /\
  Combined.gad_result 0 = (Success, str "Minimal anxiety") /\
  Gamified.gad_result 21
    = (Error, str "Severe anxiety" ++ str " " ++ [8212%N] ++ str " please seek help.") /\
  Combined.gad_result 21
    = (Error, str "Severe anxiety" ++ str " " ++ [8211%N] ++ str " please seek help.").
Proof.
  assert (Ha : contiguous 0 21 anxiety_bands) by (cbn; lia).
  assert (Hd : contiguous 0 27 depression_bands) by (cbn; lia).
  split; [exact Ha |]. split; [exact Hd |].
  split; [| split; [| repeat split]].
  - intros score Hs.
    destruct (band_unique _ _ _ _ Ha Hs) as (b & Hb & Hin & Huniq).
    exists b. split; [exact Hb |]. split; [exact Hin |]. split; [exact Huniq |].
    intros score' Hs'.
    cbn [anxiety_bands In] in Hb.
    destruct Hb as [<- | [<- | [<- | [<- | []]]]]; unfold in_band in Hin;
      cbn [fst snd] in Hin; split; band_cases.
  - intros score Hs.
    destruct (band_unique _ _ _ _ Hd Hs) as (b & Hb & Hin & Huniq).
    exists b. split; [exact Hb |]. split; [exact Hin |]. split; [exact Huniq |].
    intros score' Hs'.
    cbn [depression_bands In] in Hb.
    destruct Hb as [<- | [<- | [<- | [<- | [<- | []]]]]]; unfold in_band in Hin;
      cbn [fst snd] in Hin; split; band_cases.
Qed.

(** The bounds of [C8_severity_bands] hold at the two ends of the anxiety
    scale. *)
Lemma C8_severity_bands_witness :
  (exists b, In b anxiety_bands /\ in_band b 0) /\
  (exists b, In b anxiety_bands /\ in_band b 21).
Proof.
  destruct C8_severity_bands as (_ & _ & Hgad & _).
  split.
  - destruct (Hgad 0 ltac:(lia)) as (b & Hb & Hin & _). exists b. split; assumption.
  - destruct (Hgad 21 ltac:(lia)) as (b & Hb & Hin & _). exists b. split; assumption.
Defined.

(** ** Strings *)

Lemma starts_with_app (t rest : pystr) : starts_with t (t ++ rest) = true.
Proof.
  induction t as [| c t IH]; cbn [starts_with app]; [reflexivity |].
  rewrite N.eqb_refl. exact IH.
Qed.

Lemma contains_starts_with (t s : pystr) :
  starts_with t s = true -> contains t s = true.
Proof. intros H. destruct s; cbn [contains]; rewrite H; reflexivity. Qed.

Lemma contains_app_r (t pre s : pystr) :
  contains t s = true -> contains t (pre ++ s) = true.
Proof.
  intros H. induction pre as [| c pre IH]; [exact H |].
  cbn [app contains]. rewrite IH. apply orb_true_r.
Qed.

Lemma contains_middle (t pre post : pystr) :
  contains t (pre ++ t ++ post) = true.
Proof. apply contains_app_r, contains_starts_with, starts_with_app. Qed.

Lemma looks_situational_spec (E : runtime) (q : pystr) :
  _looks_situational E q = true <-> situational E q.
Proof.
  unfold _looks_situational, situational.
  rewrite andb_true_iff, existsb_exists. tauto.
Qed.

(** The first code points of a lowered text are those of its ASCII head. *)
Lemma lower_when (ulower : pystr -> N -> pystr -> pystr) (rest : pystr) :
  lower ulower (str "When " ++ rest)
  = str "when " ++ lower_from ulower (str "When ") rest.
Proof. reflexivity. Qed.

Lemma fix_default_situational (E : runtime) (q : pystr) :
  situational E (fix_default E q).
Proof.
  unfold fix_default.
  destruct (_looks_situational E q) eqn:Hq.
  - apply looks_situational_spec, Hq.
  - split.
    + replace (str "When you think about your day, "
               ++ rstrip_chars (str "?") q ++ str "?")
        with ((str "When you think about your day, "
               ++ rstrip_chars (str "?") q) ++ str "?" ++ [])
        by (rewrite app_nil_r, <- app_assoc; reflexivity).
      apply contains_middle.
    + exists (str "when "). split; [left; reflexivity |].
      change (str "When you think about your day, ")
        with (str "When " ++ str "you think about your day, ").
      rewrite <- app_assoc, lower_when.
      apply contains_starts_with, starts_with_app.
Qed.

(** ** Cache keys *)

Lemma str_inj (a b : string) : str a = str b -> a = b.
Proof.
  unfold str. revert b.
  induction a as [| x a IH]; intros [| y b] H; cbn in H;
    try discriminate H; [reflexivity |].
  injection H as Hxy Hab.
  f_equal; [| apply IH, Hab].
  rewrite <- (ascii_N_embedding x), <- (ascii_N_embedding y), Hxy.
  reflexivity.
Qed.

Lemma str_of_nat_inj (n n' : nat) : str_of_nat n = str_of_nat n' -> n = n'.
Proof.
  unfold str_of_nat. intros H. apply str_inj in H.
  apply DecimalNat.Unsigned.to_uint_inj.
  assert (Hsome : forall k,
            NilZero.uint_of_string (NilZero.string_of_uint (Nat.to_uint k))
            = Some (Nat.to_uint k)).
  { intros k. apply NilZero.usu. intros Hnil.
    pose proof (DecimalNat.Unsigned.of_to k) as Hk.
    pose proof (DecimalNat.Unsigned.to_of (Nat.to_uint k)) as Hk'.
    rewrite Hk in Hk'. rewrite Hnil in Hk' at 2. cbn in Hk'.
    rewrite Hnil in Hk'. discriminate Hk'. }
  pose proof (Hsome n) as Hn. rewrite H, Hsome in Hn.
  injection Hn as Hn. symmetry. exact Hn.
Qed.

Lemma digits_no_colon (d : Decimal.uint) :
  ~ In 58%N (str (NilEmpty.string_of_uint d)).
Proof.
  induction d; cbn; intros H; try (destruct H as [H | H]; [discriminate H |]);
    tauto.
Qed.

Lemma str_of_nat_no_colon (n : nat) : ~ In 58%N (str_of_nat n).
Proof.
  unfold str_of_nat, NilZero.string_of_uint.
  destruct (Nat.to_uint n) eqn:Hd; try (rewrite <- Hd; apply digits_no_colon).
  cbn. intros [H | []]. discriminate H.
Qed.

Lemma last_field_inj (c : N) (a b x y : pystr) :
  ~ In c a -> ~ In c b -> x ++ c :: a = y ++ c :: b -> a = b.
Proof.
  intros Ha Hb H.
  assert (Hrev : rev a ++ c :: rev x = rev b ++ c :: rev y).
  { apply (f_equal (@rev N)) in H.
    rewrite !rev_app_distr in H. cbn [rev] in H.
    rewrite <- !app_assoc in H. exact H. }
  assert (Hra : ~ In c (rev a)) by (rewrite <- in_rev; exact Ha).
  assert (Hrb : ~ In c (rev b)) by (rewrite <- in_rev; exact Hb).
  assert (Heq : rev a = rev b).
  { clear H Ha Hb. revert Hrev Hra Hrb.
    generalize (rev a) (rev b) (rev x) (rev y). clear.
    intros u. induction u as [| h u IH]; intros [| k v] p q H Hu Hv;
      cbn [app] in H.
    - reflexivity.
    - injection H as Hc _. exfalso. apply Hv. left. symmetry. exact Hc.
    - injection H as Hc _. exfalso. apply Hu. left. exact Hc.
    - injection H as Hhk Hrest. subst k. f_equal.
      apply (IH v p q Hrest).
      + intros Hin. apply Hu. right. exact Hin.
      + intros Hin. apply Hv. right. exact Hin. }
  rewrite <- (rev_involutive a), <- (rev_involutive b), Heq. reflexivity.
Qed.

Lemma cache_key_shape (E : runtime) (p : pystr) (n : nat) :
  cache_key_of E p n
  = (str "ai_q::" ++ str_of_Z (hash E p) ++ [58%N]) ++ 58%N :: str_of_nat n.
Proof. unfold cache_key_of. rewrite <- !app_assoc. reflexivity. Qed.

(** The item count can be read back from a key. *)
Lemma cache_key_count (E : runtime) (p p' : pystr) (n n' : nat) :
  cache_key_of E p n = cache_key_of E p' n' -> n = n'.
Proof.
  rewrite !cache_key_shape. intros H.
  apply str_of_nat_inj.
  apply (last_field_inj 58%N _ _ _ _
           (str_of_nat_no_colon n) (str_of_nat_no_colon n') H).
Qed.

(** ** One attempt *)

Section Attempts.

Variable E : runtime.
Variables prompt cache_key : pystr.
Variable expected : nat.

Lemma firstn_full {A : Type} (l : list A) (n : nat) :
  Nat.eqb (length (firstn n l)) n = Nat.leb n (length l).
Proof.
  rewrite length_firstn.
  destruct (Nat.leb_spec n (length l)) as [H | H].
  - apply Nat.eqb_eq. lia.
  - apply Nat.eqb_neq. lia.
Qed.

(** An attempt either returns the accepted outcome and caches it, or goes
    on with a failure [meta], the cache untouched. *)
Lemma attempt_cases (a : pystr * bool) (w : world) :
  let r := request_of prompt expected a in
  let res := create E (trace w) r in
  (accepted E expected res = true /\
   attempt E prompt expected cache_key (fst a) (snd a) w
   = (Return (accepted_outcome E expected a res),
      World (<[cache_key := accepted_outcome E expected a res]>
               (session_state w))
            (trace w ++ [EvCreate r res])))
  \/
  (accepted E expected res = false /\
   exists m,
     ai_ok m = false /\ used_model m = Some (fst a) /\
     attempt E prompt expected cache_key (fst a) (snd a) w
     = (Next m,
        World (session_state w)
              (trace w ++ EvCreate r res :: backoff_of res))).
Proof.
  intros r res. unfold attempt.
  change (Request (fst a) (_fewshot_messages prompt expected (snd a))) with r.
  change (create E (trace w) r) with res.
  destruct res as [text | e]; cbn [accepted accepted_outcome backoff_of].
  - rewrite firstn_full.
    destruct (Nat.leb expected (length (scenario_lines E (reply_text text)))).
    + left. split; reflexivity.
    + right. split; [reflexivity |].
      eexists. split; [| split]; [| | unfold log_event; cbn [trace session_state];
        rewrite <- app_assoc; reflexivity]; reflexivity.
  - right. split; [reflexivity |].
    eexists. split; [| split]; [| | reflexivity]; reflexivity.
Qed.

Lemma calls_app (evs evs' : list event) :
  calls (evs ++ evs') = calls evs ++ calls evs'.
Proof.
  induction evs as [| [r res | ms] evs IH]; cbn [app calls];
    [reflexivity | rewrite IH; reflexivity | exact IH].
Qed.

Lemma calls_attempt (r : request) (res : call_result) :
  calls (EvCreate r res :: backoff_of res) = [(r, res)].
Proof. destruct res; reflexivity. Qed.

(** The two nested loops visit the schedule in order. *)
Lemma model_loop_schedule (models : list pystr) (m : meta) (w : world) :
  model_loop E prompt expected cache_key models m w
  = run_schedule E prompt expected cache_key (schedule models) m w.
Proof.
  revert m w.
  induction models as [| model_name rest IH]; intros m w; [reflexivity |].
  cbn [model_loop schedule flat_map app strict_loop run_schedule fst snd].
  destruct (attempt E prompt expected cache_key model_name false w)
    as [[o | m1] w1]; [reflexivity |].
  destruct (attempt E prompt expected cache_key model_name true w1)
    as [[o | m2] w2]; [reflexivity |].
  apply IH.
Qed.

Lemma schedule_length (models : list pystr) :
  length (schedule models) = (2 * length models)%nat.
Proof.
  induction models as [| model_name rest IH]; [reflexivity |].
  change (schedule (model_name :: rest))
    with ((model_name, false) :: (model_name, true) :: schedule rest).
  cbn [length]. lia.
Qed.

(** A run over a schedule stops at its first accepted attempt, with the
    outcome cached, or exhausts the schedule and leaves the cache as it
    was. *)
Lemma run_schedule_spec (sched : list (pystr * bool)) :
  forall (m : meta) (w : world),
    ai_ok m = false ->
    exists evs,
      trace (snd (run_schedule E prompt expected cache_key sched m w))
      = trace w ++ evs /\
      match fst (run_schedule E prompt expected cache_key sched m w) with
      | Return o =>
          stopped_at_first_accepted E prompt expected sched evs o /\
          session_state
            (snd (run_schedule E prompt expected cache_key sched m w))
          = <[cache_key := o]> (session_state w)
      | Next m' =>
          exhausted E prompt expected sched evs /\
          ai_ok m' = false /\
          (sched <> [] -> exists a, In a sched /\ used_model m' = Some (fst a)) /\
          (sched = [] -> m' = m) /\
          session_state
            (snd (run_schedule E prompt expected cache_key sched m w))
          = session_state w
      end.
Proof.
  induction sched as [| a rest IH]; intros m w Hm.
  - exists []. cbn [run_schedule fst snd]. rewrite app_nil_r.
    split; [reflexivity |].
    split; [split; [reflexivity | constructor] |].
    split; [exact Hm |].
    split; [intros H; contradiction | split; reflexivity].
  - cbn [run_schedule].
    destruct (attempt_cases a w) as [(Hacc & ->) | (Hrej & m1 & Hm1 & Hused & ->)].
    + exists [EvCreate (request_of prompt expected a)
                (create E (trace w) (request_of prompt expected a))].
      cbn [fst snd trace session_state].
      split; [reflexivity |]. split; [| reflexivity].
      exists [], a, rest, [],
        (create E (trace w) (request_of prompt expected a)).
      repeat split; try reflexivity; [constructor | exact Hacc].
    + set (res := create E (trace w) (request_of prompt expected a)) in *.
      set (w1 := World (session_state w)
                   (trace w ++ EvCreate (request_of prompt expected a) res
                            :: backoff_of res)).
      destruct (IH m1 w1 Hm1) as (evs & Htrace & Hrun).
      exists ((EvCreate (request_of prompt expected a) res :: backoff_of res)
              ++ evs).
      split.
      { rewrite Htrace. unfold w1. cbn [trace]. rewrite <- app_assoc.
        reflexivity. }
      destruct (run_schedule E prompt expected cache_key rest m1 w1)
        as [[o | m'] w']; cbn [fst snd] in *.
      * destruct Hrun as ((pre & b & post & before & res' & Hs & Hc & Hb & Hrej'
                           & Hacc' & Ho) & Hst).
        split; [| exact Hst].
        exists (a :: pre), b, post,
          ((request_of prompt expected a, res) :: before), res'.
        rewrite calls_app, calls_attempt, Hc, Hs.
        repeat split; try reflexivity; try assumption.
        -- cbn [List.map fst]. rewrite Hb. reflexivity.
        -- constructor; [exact Hrej | exact Hrej'].
      * destruct Hrun as ((Hreq & Hall) & Hm' & Hmodel & Hsame & Hst).
        split; [| split; [exact Hm' | split; [| split; [| exact Hst]]]].
        -- split.
           ++ rewrite calls_app, calls_attempt. cbn [app List.map fst].
              rewrite Hreq. reflexivity.
           ++ rewrite calls_app, calls_attempt. cbn [app].
              constructor; [exact Hrej | exact Hall].
        -- intros _. destruct rest as [| b rest'].
           ++ rewrite (Hsame eq_refl). exists a.
              split; [left; reflexivity | exact Hused].
           ++ destruct Hmodel as (c & Hc & Hcm); [discriminate |].
              exists c. split; [right; exact Hc | exact Hcm].
        -- intros H. discriminate H.
Qed.

End Attempts.

(** ** The rewriter *)

Lemma scenario_lines_valid (E : runtime) (text : pystr) :
  Forall (fun q => In q (cleaned_lines text) /\ (10 < length q)%nat /\
                   situational E q)
         (scenario_lines E text).
Proof.
  apply List.Forall_forall. intros q Hq.
  unfold scenario_lines in Hq. apply filter_In in Hq.
  destruct Hq as (Hin & Hq). apply andb_true_iff in Hq.
  destruct Hq as (Hlen & Hsit).
  split; [exact Hin |]. split.
  - apply Nat.ltb_lt, Hlen.
  - apply looks_situational_spec, Hsit.
Qed.

Lemma accepted_outcome_good (E : runtime) (expected : nat)
    (a : pystr * bool) (res : call_result) :
  accepted E expected res = true ->
  good_outcome E expected (accepted_outcome E expected a res) /\
  ai_ok (snd (accepted_outcome E expected a res)) = true /\
  used_model (snd (accepted_outcome E expected a res)) = Some (fst a).
Proof.
  destruct res as [text | e]; cbn [accepted accepted_outcome];
    [| discriminate].
  intros Hacc. apply Nat.leb_le in Hacc.
  repeat split; cbn [fst snd].
  - rewrite length_firstn. lia.
  - apply Forall_take.
    eapply List.Forall_impl; [| apply scenario_lines_valid].
    cbn beta. tauto.
Qed.

Lemma fallback_good (E : runtime) (defaults : list pystr) (m : meta) :
  good_outcome E (length defaults) (List.map (fix_default E) defaults, m).
Proof.
  split; cbn [fst].
  - apply length_map.
  - apply List.Forall_forall. intros q Hq. apply in_map_iff in Hq.
    destruct Hq as (d & <- & _). apply fix_default_situational.
Qed.

Lemma models_of_nonempty (model_candidates : option (list pystr)) :
  models_of model_candidates <> [].
Proof. destruct model_candidates as [[| m rest] |]; discriminate. Qed.

Section Rewrite.

Variable E : runtime.
Variable prompt : pystr.
Variable defaults : list pystr.
Variable model_candidates : option (list pystr).

Let expected := length defaults.
Let cache_key := cache_key_of E prompt expected.
Let sched := schedule (models_of model_candidates).

(** The cache read of line 96. *)
Lemma rewrite_hit (w : world) (cached : outcome) :
  session_state w !! cache_key = Some cached ->
  ai_generate_questions E prompt defaults model_candidates false w
  = (cached, w).
Proof.
  intros Hhit. unfold ai_generate_questions.
  fold expected. fold cache_key. rewrite Hhit. reflexivity.
Qed.

(** Everything after the cache read. *)
Lemma rewrite_miss (force_refresh : bool) (w : world) :
  (if force_refresh then None else session_state w !! cache_key) = None ->
  let res :=
    ai_generate_questions E prompt defaults model_candidates force_refresh w in
  exists evs,
    trace (snd res) = trace w ++ evs /\
    session_state (snd res) = <[cache_key := fst res]> (session_state w) /\
    ((ai_ok (snd (fst res)) = true /\
      stopped_at_first_accepted E prompt expected sched evs (fst res))
     \/
     (ai_ok (snd (fst res)) = false /\
      fst (fst res) = List.map (fix_default E) defaults /\
      (exists a, In a sched /\ used_model (snd (fst res)) = Some (fst a)) /\
      exhausted E prompt expected sched evs)).
Proof.
  intros Hmiss res. unfold res, ai_generate_questions.
  fold expected. fold cache_key. rewrite Hmiss.
  rewrite model_loop_schedule. fold sched.
  destruct (run_schedule_spec E prompt cache_key expected sched
              (Meta None false (str "not attempted")) w eq_refl)
    as (evs & Htrace & Hrun).
  exists evs.
  destruct (run_schedule E prompt expected cache_key sched
              (Meta None false (str "not attempted")) w)
    as [[o | m] w']; cbn [fst snd] in *.
  - destruct Hrun as (Hstop & Hst).
    split; [exact Htrace |]. split; [exact Hst |].
    left. split; [| exact Hstop].
    destruct Hstop as (pre & a & post & before & reply & _ & _ & _ & _ & Hacc & ->).
    apply accepted_outcome_good, Hacc.
  - destruct Hrun as (Hex & Hm & Hmodel & _ & Hst).
    split; [exact Htrace |].
    split; [unfold cache_store; cbn [session_state]; rewrite Hst; reflexivity |].
    right. split; [exact Hm |]. split; [reflexivity |].
    split; [| exact Hex].
    apply Hmodel. unfold sched.
    pose proof (models_of_nonempty model_candidates) as Hne.
    destruct (models_of model_candidates); [contradiction | discriminate].
Qed.

(** The outcome is fit for the battery, and the cache stays well formed. *)
Lemma rewrite_good (force_refresh : bool) (w : world) :
  cache_ok E w ->
  let res :=
    ai_generate_questions E prompt defaults model_candidates force_refresh w in
  good_outcome E expected (fst res) /\ cache_ok E (snd res).
Proof.
  intros Hok res.
  destruct (if force_refresh then None else session_state w !! cache_key)
    as [cached |] eqn:Hread.
  - destruct force_refresh; [discriminate Hread |].
    unfold res. rewrite (rewrite_hit w cached Hread). cbn [fst snd].
    split; [| exact Hok]. apply (Hok prompt expected cached Hread).
  - destruct (rewrite_miss force_refresh w Hread)
      as (evs & _ & Hst & Hcases).
    fold res in Hst, Hcases.
    assert (Hgood : good_outcome E expected (fst res)).
    { destruct Hcases as [(_ & Hstop) | (_ & Hfix & _)].
      - destruct Hstop as (pre & a & post & before & reply & _ & _ & _ & _
                           & Hacc & ->).
        apply accepted_outcome_good, Hacc.
      - destruct (fst res) as [qs m]. cbn [fst] in Hfix. subst qs.
        apply fallback_good. }
    split; [exact Hgood |].
    intros p n o. rewrite Hst.
    destruct (decide (cache_key = cache_key_of E p n)) as [Heq | Hne].
    + rewrite <- Heq, lookup_insert_eq. intros [= <-].
      unfold cache_key in Heq. apply cache_key_count in Heq.
      rewrite <- Heq. exact Hgood.
    + rewrite lookup_insert_ne by exact Hne. apply Hok.
Qed.

(** The part of a call after the cache read does not look at the cache. *)
Lemma attempt_cache_blind (a : pystr * bool) (w w0 : world) :
  trace w0 = trace w ->
  fst (attempt E prompt expected cache_key (fst a) (snd a) w0)
  = fst (attempt E prompt expected cache_key (fst a) (snd a) w) /\
  trace (snd (attempt E prompt expected cache_key (fst a) (snd a) w0))
  = trace (snd (attempt E prompt expected cache_key (fst a) (snd a) w)).
Proof.
  intros Htrace. unfold attempt, log_event, cache_store.
  cbn [trace session_state]. rewrite Htrace.
  destruct (create E (trace w) _) as [text | e]; [| split; reflexivity].
  destruct (Nat.eqb _ expected); split; reflexivity.
Qed.

Lemma run_schedule_cache_blind (s : list (pystr * bool)) :
  forall (m : meta) (w w0 : world),
    trace w0 = trace w ->
    fst (run_schedule E prompt expected cache_key s m w0)
    = fst (run_schedule E prompt expected cache_key s m w) /\
    trace (snd (run_schedule E prompt expected cache_key s m w0))
    = trace (snd (run_schedule E prompt expected cache_key s m w)).
Proof.
  induction s as [| a rest IH]; intros m w w0 Htrace.
  - split; [reflexivity | exact Htrace].
  - cbn [run_schedule].
    destruct (attempt_cache_blind a w w0 Htrace) as (Hfst & Htr).
    destruct (attempt E prompt expected cache_key (fst a) (snd a) w0)
      as [r0 w0'];
      destruct (attempt E prompt expected cache_key (fst a) (snd a) w)
      as [r w']; cbn [fst snd] in *.
    subst r0. destruct r as [o | m']; [split; [reflexivity | exact Htr] |].
    apply IH, Htr.
Qed.

Lemma rewrite_refresh_blind (w w0 : world) :
  trace w0 = trace w ->
  fst (ai_generate_questions E prompt defaults model_candidates true w0)
  = fst (ai_generate_questions E prompt defaults model_candidates true w).
Proof.
  intros Htrace. unfold ai_generate_questions.
  fold expected. fold cache_key. rewrite !model_loop_schedule.
  destruct (run_schedule_cache_blind (schedule (models_of model_candidates))
              (Meta None false (str "not attempted")) w w0 Htrace)
    as (Hfst & _).
  destruct (run_schedule E prompt expected cache_key _ _ w0) as [r0 w0'];
    destruct (run_schedule E prompt expected cache_key _ _ w) as [r w'];
    cbn [fst snd] in *.
  subst r0. destruct r; reflexivity.
Qed.

End Rewrite.

(** ** The claims about the rewriter *)

(** C1, as the code has it.  An attempt is accepted exactly when its call
    comes back with at least [expected] scenario lines; the outcome is then
    the first [expected] of them, flagged [ai_ok] and written to the cache.
    Any other attempt (fewer scenario lines, or a raised call) is a failure
    of the whole attempt: the loop goes on with [ai_ok] false and nothing
    is cached. *)
Theorem C1_attempt_accepts_enough_lines (E : runtime) (prompt cache_key : pystr)
    (expected : nat) (model_name : pystr) (strict : bool) (w : world) :
  let r := Request model_name (_fewshot_messages prompt expected strict) in
  let result := attempt E prompt expected cache_key model_name strict w in
  (forall o,
     fst result = Return o <->
     exists text,
       create E (trace w) r = Returned text /\
       (expected <= length (scenario_lines E (reply_text text)))%nat /\
       o = (firstn expected (scenario_lines E (reply_text text)),
            Meta (Some model_name) true
              (str "scenario-ok (strict=" ++ str_of_bool strict ++ str ")")))
  /\
  (forall o,
     fst result = Return o ->
     length (fst o) = expected /\ ai_ok (snd o) = true /\
     session_state (snd result) !! cache_key = Some o)
  /\
  (forall m,
     fst result = Next m ->
     ai_ok m = false /\ session_state (snd result) = session_state w).
Proof.
  intros r result.
  pose proof (attempt_cases E prompt cache_key expected (model_name, strict) w)
    as Hcases.
  cbn [fst snd] in Hcases. unfold request_of in Hcases. cbn [fst snd] in Hcases.
  fold r in Hcases. fold result in Hcases.
  destruct Hcases as [(Hacc & Hres) | (Hrej & m1 & Hm1 & _ & Hres)];
    rewrite Hres; cbn [fst snd session_state].
  - destruct (create E (trace w) r) as [text | e] eqn:Hcall;
      cbn [accepted accepted_outcome fst snd] in *; [| discriminate Hacc].
    apply Nat.leb_le in Hacc.
    repeat split.
    + intros [= <-]. exists text. repeat split; [exact Hacc].
    + intros (text' & [= <-] & _ & ->). reflexivity.
    + injection H as <-. cbn [fst]. rewrite length_firstn. lia.
    + injection H as <-. reflexivity.
    + injection H as <-. apply lookup_insert_eq.
    + discriminate H.
    + discriminate H.
  - repeat split.
    + intros H. discriminate H.
    + intros (text & Hcall & Hle & _). rewrite Hcall in Hrej.
      cbn [accepted] in Hrej. apply Nat.leb_le in Hle. congruence.
    + discriminate H.
    + discriminate H.
    + discriminate H.
    + injection H as <-. exact Hm1.
Qed.

(** C1 as stated fails: with one default item, a reply with two scenario
    lines is accepted, cut down to its first line. *)
Lemma C1_surplus_lines_are_accepted :
  create chatty_runtime []
    (Request (str "gpt-4.1-nano") (_fewshot_messages (str "p") 1 false))
  = Returned (Some two_line_reply) /\
  length (scenario_lines chatty_runtime (reply_text (Some two_line_reply)))
  = 2%nat /\
  fst (attempt chatty_runtime (str "p") 1
         (cache_key_of chatty_runtime (str "p") 1)
         (str "gpt-4.1-nano") false empty_world)
  = Return ([str "When you wake up, do you feel tense?"],
            Meta (Some (str "gpt-4.1-nano")) true
              (str "scenario-ok (strict=False)")) /\
  ai_ok (snd (fst (ai_generate_questions chatty_runtime (str "p")
                     [str "Do you feel tense?"] None false empty_world)))
  = true.
Proof. vm_compute. repeat split. Qed.

Lemma empty_world_cache_ok (E : runtime) : cache_ok E empty_world.
Proof.
  intros p n o H. cbn [empty_world session_state] in H.
  rewrite lookup_empty in H. discriminate H.
Qed.

Lemma stopped_not_all_rejected (E : runtime) (prompt : pystr) (expected : nat)
    (sched : list (pystr * bool)) (evs : list event) (o : outcome) :
  stopped_at_first_accepted E prompt expected sched evs o ->
  ~ Forall (rejected_call E expected) (calls evs).
Proof.
  intros (pre & a & post & before & reply & _ & Hcalls & _ & _ & Hacc & _) Hall.
  rewrite Hcalls in Hall. apply List.Forall_app in Hall.
  destruct Hall as (_ & Hlast). inversion Hlast as [| c l Hc _]; subst.
  unfold rejected_call in Hc. cbn [snd] in Hc. congruence.
Qed.

(** C2.  From a session whose rewriter entries are well formed, and
    whatever the generation service does (replies of any text, missing
    content, raised calls), [ai_generate_questions] yields an outcome with
    exactly [len(defaults)] questions, each with a question mark and a marker
    token, and a status; the session stays well formed.  When the call is
    not served from the cache and every generation call is rejected or
    raises, the questions are the patched defaults and [ai_ok] is false. *)
Theorem C2_rewrite_always_delivers (E : runtime) (prompt : pystr)
    (defaults : list pystr) (model_candidates : option (list pystr))
    (force_refresh : bool) (w : world) :
  cache_ok E w ->
  let res :=
    ai_generate_questions E prompt defaults model_candidates force_refresh w in
  length (fst (fst res)) = length defaults /\
  Forall (situational E) (fst (fst res)) /\
  cache_ok E (snd res) /\
  ((if force_refresh then None
    else session_state w !! cache_key_of E prompt (length defaults)) = None ->
   forall evs,
     trace (snd res) = trace w ++ evs ->
     Forall (rejected_call E (length defaults)) (calls evs) ->
     ai_ok (snd (fst res)) = false /\
     fst (fst res) = List.map (fix_default E) defaults).
Proof.
  intros Hok res.
  destruct (rewrite_good E prompt defaults model_candidates force_refresh w Hok)
    as ((Hlen & Hall) & Hok').
  fold res in Hlen, Hall, Hok'.
  split; [exact Hlen |]. split; [exact Hall |]. split; [exact Hok' |].
  intros Hmiss evs Htrace Hrej.
  destruct (rewrite_miss E prompt defaults model_candidates force_refresh w Hmiss)
    as (evs' & Htrace' & _ & Hcases).
  fold res in Htrace', Hcases.
  rewrite Htrace in Htrace'. apply app_inv_head in Htrace'. subst evs'.
  destruct Hcases as [(_ & Hstop) | (Hno & Hfix & _)].
  - exfalso. exact (stopped_not_all_rejected _ _ _ _ _ _ Hstop Hrej).
  - split; assumption.
Qed.

(** [C2_rewrite_always_delivers] on a fresh session with a service whose
    every call raises. *)
Lemma C2_rewrite_always_delivers_witness :
  cache_ok failing_runtime empty_world /\
  length (fst (fst (ai_generate_questions failing_runtime Gamified.gad_prompt
                      Gamified.gad_defaults None false empty_world)))
  = length Gamified.gad_defaults.
Proof.
  split; [apply empty_world_cache_ok |].
  exact (proj1 (C2_rewrite_always_delivers failing_runtime Gamified.gad_prompt
                  Gamified.gad_defaults None false empty_world
                  (empty_world_cache_ok failing_runtime))).
Defined.

(** C3 fails on the code: a raised call is recorded in [meta] and the loop
    goes on, but without a back-off.  With a service whose every call
    raises, all six attempts are made, the last error is the reason of the
    fallback, and the trace holds no sleep; with a service that sends
    nothing, each of the six rejected attempts is followed by the 0.2 s
    sleep. *)
Theorem C3_raised_calls_skip_the_backoff :
  List.map snd
    (calls (trace (snd (ai_generate_questions failing_runtime
                          Gamified.gad_prompt Gamified.gad_defaults None false
                          empty_world))))
  = repeat (Raised (str "rate limit")) 6 /\
  sleeps (trace (snd (ai_generate_questions failing_runtime
                        Gamified.gad_prompt Gamified.gad_defaults None false
                        empty_world)))
  = [] /\
  snd (fst (ai_generate_questions failing_runtime Gamified.gad_prompt
              Gamified.gad_defaults None false empty_world))
  = Meta (Some (str "gpt-3.5-turbo")) false (str "error: rate limit") /\
  sleeps (trace (snd (ai_generate_questions silent_runtime
                        Gamified.gad_prompt Gamified.gad_defaults None false
                        empty_world)))
  = repeat 200%N 6.
Proof. vm_compute. repeat split. Qed.

(** On every run: a raised call leaves its reason in [meta] and nothing but
    the call in the trace, and the loop goes on. *)
Lemma attempt_raised (E : runtime) (prompt cache_key : pystr) (expected : nat)
    (model_name : pystr) (strict : bool) (w : world) (e : pystr) :
  create E (trace w)
    (Request model_name (_fewshot_messages prompt expected strict))
  = Raised e ->
  attempt E prompt expected cache_key model_name strict w
  = (Next (Meta (Some model_name) false (str "error: " ++ e)),
     World (session_state w)
       (trace w ++ [EvCreate
                      (Request model_name
                         (_fewshot_messages prompt expected strict))
                      (Raised e)])).
Proof. intros Hcall. unfold attempt. rewrite Hcall. reflexivity. Qed.

(** C4.  When the session holds an outcome under the key of
    [(prompt, len(defaults))] and [force_refresh] is false, the call returns
    that outcome as it is and leaves the world as it was: no generation
    call, no sleep, no write. *)
Theorem C4_cached_outcome_is_returned (E : runtime) (prompt : pystr)
    (defaults : list pystr) (model_candidates : option (list pystr))
    (w : world) (cached : outcome) :
  session_state w !! cache_key_of E prompt (length defaults) = Some cached ->
  ai_generate_questions E prompt defaults model_candidates false w
  = (cached, w).
Proof. apply rewrite_hit. Qed.

(** [C4_cached_outcome_is_returned] on a session that holds one outcome. *)
Lemma C4_cached_outcome_is_returned_witness :
  ai_generate_questions failing_runtime (str "p") [str "Do you worry?"] None
    false
    (cache_store (cache_key_of failing_runtime (str "p") 1)
       ([str "At home, do you worry?"], Meta None false (str "kept"))
       empty_world)
  = (([str "At home, do you worry?"], Meta None false (str "kept")),
     cache_store (cache_key_of failing_runtime (str "p") 1)
       ([str "At home, do you worry?"], Meta None false (str "kept"))
       empty_world).
Proof.
  apply (C4_cached_outcome_is_returned failing_runtime (str "p")
           [str "Do you worry?"] None).
  apply lookup_insert_eq.
Defined.

(** Calling twice: whatever the first call did, a second call with the same
    arguments and [force_refresh] false returns the same outcome and changes
    nothing. *)
Lemma rewrite_twice (E : runtime) (prompt : pystr) (defaults : list pystr)
    (model_candidates : option (list pystr)) (force_refresh : bool)
    (w : world) :
  let first :=
    ai_generate_questions E prompt defaults model_candidates force_refresh w in
  ai_generate_questions E prompt defaults model_candidates false (snd first)
  = first.
Proof.
  intros first.
  destruct (if force_refresh then None
            else session_state w !! cache_key_of E prompt (length defaults))
    as [cached |] eqn:Hread.
  - destruct force_refresh; [discriminate Hread |].
    unfold first. rewrite (rewrite_hit E prompt defaults model_candidates w cached Hread).
    cbn [snd]. apply rewrite_hit, Hread.
  - destruct (rewrite_miss E prompt defaults model_candidates force_refresh w Hread)
      as (evs & _ & Hst & _).
    fold first in Hst.
    rewrite (rewrite_hit E prompt defaults model_candidates (snd first) (fst first)).
    + destruct first; reflexivity.
    + rewrite Hst. apply lookup_insert_eq.
Qed.

Lemma schedule_nonempty (model_candidates : option (list pystr)) :
  (1 <= length (schedule (models_of model_candidates)))%nat.
Proof.
  rewrite schedule_length.
  pose proof (models_of_nonempty model_candidates) as Hne.
  destruct (models_of model_candidates); [contradiction | cbn [length]; lia].
Qed.

(** How many calls a run makes: one more than the attempts before the
    accepted one, or the whole schedule. *)
Lemma stopped_call_count (E : runtime) (prompt : pystr) (expected : nat)
    (sched : list (pystr * bool)) (evs : list event) (o : outcome) :
  stopped_at_first_accepted E prompt expected sched evs o ->
  (1 <= length (calls evs) <= length sched)%nat.
Proof.
  intros (pre & a & post & before & reply & -> & -> & Hmap & _).
  apply (f_equal (@length request)) in Hmap. rewrite !length_map in Hmap.
  rewrite !length_app. cbn [length]. lia.
Qed.

Lemma exhausted_call_count (E : runtime) (prompt : pystr) (expected : nat)
    (sched : list (pystr * bool)) (evs : list event) :
  exhausted E prompt expected sched evs ->
  length (calls evs) = length sched.
Proof.
  intros (Hmap & _).
  apply (f_equal (@length request)) in Hmap. rewrite !length_map in Hmap.
  exact Hmap.
Qed.

(** C5.  With [force_refresh] true the cache is not read: the outcome is
    the same whatever the session holds, at least one generation call is
    made, and the outcome (accepted or fallback) is written under the key,
    replacing what was there; no other key changes. *)
Theorem C5_force_refresh_regenerates (E : runtime) (prompt : pystr)
    (defaults : list pystr) (model_candidates : option (list pystr))
    (w : world) :
  let res :=
    ai_generate_questions E prompt defaults model_candidates true w in
  (exists evs,
     trace (snd res) = trace w ++ evs /\ (1 <= length (calls evs))%nat) /\
  session_state (snd res)
  = <[cache_key_of E prompt (length defaults) := fst res]> (session_state w) /\
  (forall w0,
     trace w0 = trace w ->
     fst (ai_generate_questions E prompt defaults model_candidates true w0)
     = fst res).
Proof.
  intros res.
  destruct (rewrite_miss E prompt defaults model_candidates true w eq_refl)
    as (evs & Htrace & Hst & Hcases).
  fold res in Htrace, Hst, Hcases.
  split; [| split; [exact Hst |]].
  - exists evs. split; [exact Htrace |].
    destruct Hcases as [(_ & Hstop) | (_ & _ & _ & Hex)].
    + apply stopped_call_count in Hstop. lia.
    + apply exhausted_call_count in Hex. rewrite Hex.
      apply schedule_nonempty.
  - intros w0 Hw0. apply rewrite_refresh_blind, Hw0.
Qed.

(** C6.  A call that is not served from the cache issues its generation
    calls along the schedule: the models in their given order, each in
    normal mode and then in strict mode.  It makes at most two calls per
    model.  Either it stops at the first accepted attempt, every earlier
    attempt having been rejected or having raised, and returns that
    attempt's outcome; or it goes through the whole schedule without an
    accepted attempt. *)
Theorem C6_attempts_follow_the_schedule (E : runtime) (prompt : pystr)
    (defaults : list pystr) (model_candidates : option (list pystr))
    (force_refresh : bool) (w : world) :
  (if force_refresh then None
   else session_state w !! cache_key_of E prompt (length defaults)) = None ->
  let models := models_of model_candidates in
  let res :=
    ai_generate_questions E prompt defaults model_candidates force_refresh w in
  exists evs,
    trace (snd res) = trace w ++ evs /\
    (length (calls evs) <= 2 * length models)%nat /\
    ((ai_ok (snd (fst res)) = true /\
      stopped_at_first_accepted E prompt (length defaults) (schedule models)
        evs (fst res))
     \/
     (ai_ok (snd (fst res)) = false /\
      exhausted E prompt (length defaults) (schedule models) evs)).
Proof.
  intros Hmiss models res.
  destruct (rewrite_miss E prompt defaults model_candidates force_refresh w Hmiss)
    as (evs & Htrace & _ & Hcases).
  fold res in Htrace, Hcases. fold models in Hcases.
  exists evs. split; [exact Htrace |].
  rewrite <- schedule_length.
  destruct Hcases as [(Hok & Hstop) | (Hno & _ & _ & Hex)].
  - split; [apply stopped_call_count in Hstop; lia |].
    left. split; assumption.
  - split; [apply exhausted_call_count in Hex; lia |].
    right. split; assumption.
Qed.

(** [C6_attempts_follow_the_schedule] on a fresh session. *)
Lemma C6_attempts_follow_the_schedule_witness :
  exists evs,
    trace (snd (ai_generate_questions chatty_runtime (str "p")
                  [str "Do you feel tense?"] None false empty_world))
    = trace empty_world ++ evs /\
    (length (calls evs) <= 2 * length (models_of None))%nat.
Proof.
  destruct (C6_attempts_follow_the_schedule chatty_runtime (str "p")
              [str "Do you feel tense?"] None false empty_world)
    as (evs & Htrace & Hcount & _).
  - apply lookup_empty.
  - exists evs. split; [exact Htrace | exact Hcount].
Defined.

(** The schedule of the default models, spelled out. *)
Example default_schedule :
  schedule (models_of None)
  = [ (str "gpt-4.1-nano", false); (str "gpt-4.1-nano", true);
      (str "gpt-4o-mini", false); (str "gpt-4o-mini", true);
      (str "gpt-3.5-turbo", false); (str "gpt-3.5-turbo", true) ].
Proof. reflexivity. Qed.

(** C9.  When every slider hands back one of its four options, a screener
    score is the sum of one value in 0..3 per rendered question, so it lies
    between 0 and three times the number of questions.  The anxiety battery
    has 7 questions and the depression battery 9, in the static script and
    (from a well-formed session) after the rewriter, so the scores lie in
    [0,21] and [0,27]. *)
Theorem C9_scores_within_range (E : runtime) (regen : bool)
    (select_slider : pystr -> pystr -> pystr) (w : world) :
  (forall label key, In (select_slider label key) emoji_options) ->
  cache_ok E w ->
  (forall prefix questions,
     exists score,
       screener_score select_slider prefix questions = Some score /\
       0 <= score <= 3 * Z.of_nat (length questions)) /\
  (exists score,
     fst (Gamified.gad_score E regen select_slider w) = Some score /\
     0 <= score <= 21) /\
  (exists score,
     fst (Gamified.phq_score E regen select_slider w) = Some score /\
     0 <= score <= 27) /\
  (exists score,
     Combined.gad_score select_slider = Some score /\ 0 <= score <= 21) /\
  (exists score,
     Combined.phq_score select_slider = Some score /\ 0 <= score <= 27).
Proof.
  intros Hvalid Hok.
  split; [intros prefix questions; apply screener_score_bounds, Hvalid |].
  split; [| split; [| split]].
  - unfold Gamified.gad_score.
    destruct (rewrite_good E Gamified.gad_prompt Gamified.gad_defaults None
                regen w Hok) as ((Hlen & _) & _).
    destruct (ai_generate_questions E Gamified.gad_prompt
                Gamified.gad_defaults None regen w) as [[qs m] w'].
    cbn [fst snd] in *.
    destruct (screener_score_bounds select_slider (str "gad_") qs Hvalid)
      as (score & Hscore & Hb).
    exists score. split; [exact Hscore |].
    rewrite Hlen in Hb. cbn in Hb. lia.
  - unfold Gamified.phq_score.
    destruct (rewrite_good E Gamified.phq_prompt Gamified.phq_defaults None
                regen w Hok) as ((Hlen & _) & _).
    destruct (ai_generate_questions E Gamified.phq_prompt
                Gamified.phq_defaults None regen w) as [[qs m] w'].
    cbn [fst snd] in *.
    destruct (screener_score_bounds select_slider (str "phq_") qs Hvalid)
      as (score & Hscore & Hb).
    exists score. split; [exact Hscore |].
    rewrite Hlen in Hb. cbn in Hb. lia.
  - destruct (screener_score_bounds select_slider (str "gad_")
                Combined.gad_questions Hvalid) as (score & Hscore & Hb).
    exists score. split; [exact Hscore | cbn in Hb; lia].
  - destruct (screener_score_bounds select_slider (str "phq_")
                Combined.phq_questions Hvalid) as (score & Hscore & Hb).
    exists score. split; [exact Hscore | cbn in Hb; lia].
Qed.

(** [C9_scores_within_range] on a fresh session, every slider on its first
    option. *)
Lemma C9_scores_within_range_witness :
  exists score,
    Combined.gad_score first_option = Some score /\ 0 <= score <= 21.
Proof.
  refine (proj1 (proj2 (proj2 (proj2
            (C9_scores_within_range failing_runtime false first_option
               empty_world _ (empty_world_cache_ok failing_runtime)))))).
  intros label key. left. reflexivity.
Defined.

(** C10.  A cleaned line is a scenario line only if it is longer than 10
    code points, on top of having a question mark and a marker token; a line
    of 10 code points or fewer is never one, as the line [When ok?] shows,
    which has both.  So every question of an accepted attempt is longer than
    10 code points. *)
Theorem C10_short_lines_are_dropped (E : runtime) (text q : pystr) :
  (In q (scenario_lines E text) <->
   In q (cleaned_lines text) /\ (10 < length q)%nat /\ situational E q) /\
  ((length q <= 10)%nat -> ~ In q (scenario_lines E text)) /\
  (forall expected a res,
     accepted E expected res = true ->
     Forall (fun line => (10 < length line)%nat)
       (fst (accepted_outcome E expected a res))) /\
  (_looks_situational E (str "When ok?") = true /\
   cleaned_lines (str "1. When ok?") = [str "When ok?"] /\
   scenario_lines E (str "1. When ok?") = []).
Proof.
  pose proof (scenario_lines_valid E text) as Hvalid.
  rewrite List.Forall_forall in Hvalid.
  split; [split |]; [apply Hvalid | | split; [| split]].
  - intros (Hin & Hlen & Hsit). unfold scenario_lines.
    apply filter_In. split; [exact Hin |].
    apply andb_true_iff. split.
    + apply Nat.ltb_lt, Hlen.
    + apply looks_situational_spec, Hsit.
  - intros Hshort Hin. apply Hvalid in Hin. lia.
  - intros expected a [reply | e] Hacc; [| discriminate Hacc].
    cbn [accepted_outcome fst]. apply Forall_take.
    eapply List.Forall_impl; [| apply scenario_lines_valid].
    cbn beta. tauto.
  - split; [| split]; reflexivity.
Qed.

(** * Further properties of the code *)

(** ** The session cache *)

Lemma str_of_Z_inj (z z' : Z) : str_of_Z z = str_of_Z z' -> z = z'.
Proof.
  unfold str_of_Z. intros H. apply str_inj in H.
  apply DecimalZ.to_int_inj.
  assert (Hsome : forall k,
            NilZero.int_of_string (NilZero.string_of_int (Z.to_int k))
            = Some (Z.to_int k)).
  { intros k. apply NilZero.isi; destruct k as [| p | p]; cbn [Z.to_int];
      try discriminate; intros [= Hp];
      exact (DecimalPos.Unsigned.to_uint_nonnil p Hp). }
  pose proof (Hsome z) as Hz. rewrite H, Hsome in Hz.
  injection Hz as Hz. symmetry. exact Hz.
Qed.

Lemma cache_key_of_inj (E : runtime) (p p' : pystr) (n n' : nat) :
  cache_key_of E p n = cache_key_of E p' n' ->
  hash E p = hash E p' /\ n = n'.
Proof.
  intros H. pose proof (cache_key_count E p p' n n' H) as Hn. subst n'.
  split; [| reflexivity].
  rewrite !cache_key_shape in H.
  apply app_inv_tail in H. apply app_inv_head in H.
  apply app_inv_tail in H. apply str_of_Z_inj, H.
Qed.

Lemma cache_key_of_same (E : runtime) (p p' : pystr) (n n' : nat) :
  hash E p = hash E p' -> n = n' ->
  cache_key_of E p n = cache_key_of E p' n'.
Proof. intros Hh ->. unfold cache_key_of. rewrite Hh. reflexivity. Qed.

(** X1.  The key [ai_q::<hash>::<count>] tells apart exactly the hash of
    the prompt and the number of default items: two calls share a cache
    entry if and only if their prompts have the same hash and their default
    lists the same length. *)
Theorem cache_key_of_eq_iff (E : runtime) (p p' : pystr) (n n' : nat) :
  cache_key_of E p n = cache_key_of E p' n'
  <-> hash E p = hash E p' /\ n = n'.
Proof.
  split.
  - apply cache_key_of_inj.
  - intros (Hh & Hn). apply cache_key_of_same; assumption.
Qed.

(** Every call leaves its outcome under its key and no other key touched. *)
Lemma rewrite_frame (E : runtime) (prompt : pystr) (defaults : list pystr)
    (model_candidates : option (list pystr)) (force_refresh : bool)
    (w : world) :
  let res :=
    ai_generate_questions E prompt defaults model_candidates force_refresh w in
  session_state (snd res) !! cache_key_of E prompt (length defaults)
  = Some (fst res) /\
  (forall k,
     k <> cache_key_of E prompt (length defaults) ->
     session_state (snd res) !! k = session_state w !! k).
Proof.
  intros res.
  destruct (if force_refresh then None
            else session_state w !! cache_key_of E prompt (length defaults))
    as [cached |] eqn:Hread.
  - destruct force_refresh; [discriminate Hread |].
    unfold res.
    rewrite (rewrite_hit E prompt defaults model_candidates w cached Hread).
    cbn [fst snd]. split; [exact Hread | reflexivity].
  - destruct (rewrite_miss E prompt defaults model_candidates force_refresh w
                Hread) as (evs & _ & Hst & _).
    fold res in Hst. rewrite Hst. split.
    + apply lookup_insert_eq.
    + intros k Hk. apply lookup_insert_ne. congruence.
Qed.

(** X2.  Whatever path a call takes (cache hit, accepted attempt or
    fallback), afterwards the session holds the returned outcome under the
    key of the call, and every other entry of the session is as it was. *)
Theorem rewrite_writes_only_its_key (E : runtime) (prompt : pystr)
    (defaults : list pystr) (model_candidates : option (list pystr))
    (force_refresh : bool) (w : world) (k : pystr) :
  let res :=
    ai_generate_questions E prompt defaults model_candidates force_refresh w in
  session_state (snd res) !! k
  = if bool_decide (k = cache_key_of E prompt (length defaults))
    then Some (fst res)
    else session_state w !! k.
Proof.
  intros res.
  destruct (rewrite_frame E prompt defaults model_candidates force_refresh w)
    as (Hkey & Hother).
  fold res in Hkey, Hother.
  case_bool_decide as Hk.
  - subst k. exact Hkey.
  - apply Hother, Hk.
Qed.

(** X3.  The cache does not compare prompts, only their hashes: after any
    call, a call with another prompt of the same hash and a default list of
    the same length (and [force_refresh] false) returns the outcome of the
    first call, whatever its own defaults and models are, and makes no
    generation call. *)
Theorem colliding_prompts_share_outcome (E : runtime) (p p' : pystr)
    (defaults defaults' : list pystr) (mc mc' : option (list pystr))
    (force_refresh : bool) (w : world) :
  hash E p = hash E p' ->
  length defaults = length defaults' ->
  let first := ai_generate_questions E p defaults mc force_refresh w in
  ai_generate_questions E p' defaults' mc' false (snd first) = first.
Proof.
  intros Hhash Hlen first.
  destruct (rewrite_frame E p defaults mc force_refresh w) as (Hkey & _).
  fold first in Hkey.
  rewrite (rewrite_hit E p' defaults' mc' (snd first) (fst first)).
  - destruct first; reflexivity.
  - rewrite <- Hkey. f_equal.
    apply cache_key_of_same; [symmetry; exact Hhash | symmetry; exact Hlen].
Qed.

(** [colliding_prompts_share_outcome] with the sample hash, under which
    [ab] and [ba] collide: the question asked for [ba] gets the outcome
    made for [ab]. *)
Lemma colliding_prompts_share_outcome_witness :
  ai_generate_questions failing_runtime (str "ba") [str "Is it hard to rest?"]
    None false
    (snd (ai_generate_questions failing_runtime (str "ab")
            [str "Do you worry?"] None false empty_world))
  = ai_generate_questions failing_runtime (str "ab") [str "Do you worry?"]
      None false empty_world.
Proof.
  apply (colliding_prompts_share_outcome failing_runtime (str "ab") (str "ba")
           [str "Do you worry?"] [str "Is it hard to rest?"] None None false
           empty_world); reflexivity.
Defined.

(** X4.  Running the page again without pressing Regenerate costs no
    generation call: the anxiety and depression batteries are cached under
    different keys (7 and 9 items), so the second run returns the same two
    outcomes and leaves session and trace as the first run left them. *)
Theorem page_rerun_is_served_from_cache (E : runtime) (regen : bool)
    (w : world) :
  GamifiedPage.questions E false (snd (GamifiedPage.questions E regen w))
  = GamifiedPage.questions E regen w.
Proof.
  unfold GamifiedPage.questions.
  pose proof (rewrite_frame E Gamified.gad_prompt Gamified.gad_defaults None
                regen w) as (Hgad & _).
  destruct (ai_generate_questions E Gamified.gad_prompt Gamified.gad_defaults
              None regen w) as [gad w1].
  cbn [fst snd] in Hgad.
  pose proof (rewrite_frame E Gamified.phq_prompt Gamified.phq_defaults None
                regen w1) as (Hphq & Hother).
  destruct (ai_generate_questions E Gamified.phq_prompt Gamified.phq_defaults
              None regen w1) as [phq w2].
  cbn [fst snd] in *.
  assert (Hgad2 : session_state w2
                  !! cache_key_of E Gamified.gad_prompt
                       (length Gamified.gad_defaults) = Some gad).
  { rewrite Hother; [exact Hgad |].
    intros Heq. apply cache_key_count in Heq. discriminate Heq. }
  rewrite (rewrite_hit E Gamified.gad_prompt Gamified.gad_defaults None w2 gad
             Hgad2).
  rewrite (rewrite_hit E Gamified.phq_prompt Gamified.phq_defaults None w2 phq
             Hphq).
  reflexivity.
Qed.

(** ** Failed attempts *)

(** One attempt, in closed form. *)
Lemma attempt_eq (E : runtime) (prompt cache_key : pystr) (expected : nat)
    (a : pystr * bool) (w : world) :
  let r := request_of prompt expected a in
  let res := create E (trace w) r in
  attempt E prompt expected cache_key (fst a) (snd a) w
  = if accepted E expected res
    then (Return (accepted_outcome E expected a res),
          World (<[cache_key := accepted_outcome E expected a res]>
                   (session_state w))
                (trace w ++ [EvCreate r res]))
    else (Next (failure_meta E expected a res),
          World (session_state w)
                (trace w ++ EvCreate r res :: backoff_of res)).
Proof.
  intros r res. unfold attempt.
  change (Request (fst a) (_fewshot_messages prompt expected (snd a))) with r.
  change (create E (trace w) r) with res.
  destruct res as [text | e];
    cbn [accepted accepted_outcome failure_meta backoff_of]; [| reflexivity].
  rewrite firstn_full.
  destruct (Nat.leb expected (length (scenario_lines E (reply_text text))));
    [reflexivity |].
  unfold log_event. cbn [trace session_state]. rewrite <- app_assoc.
  reflexivity.
Qed.


(** A run that exhausts a schedule ends with the [meta] of its last
    attempt. *)
Lemma run_schedule_last_failure (E : runtime) (prompt cache_key : pystr)
    (expected : nat) (sched : list (pystr * bool)) :
  forall (m m' : meta) (w : world),
    sched <> [] ->
    fst (run_schedule E prompt expected cache_key sched m w) = Next m' ->
    exists evs front a before reply,
      trace (snd (run_schedule E prompt expected cache_key sched m w))
      = trace w ++ evs /\
      sched = front ++ [a] /\
      calls evs = before ++ [(request_of prompt expected a, reply)] /\
      m' = failure_meta E expected a reply.
Proof.
  induction sched as [| a rest IH]; intros m m' w Hne Hrun; [contradiction |].
  cbn [run_schedule] in *. rewrite attempt_eq in *.
  set (r := request_of prompt expected a) in *.
  set (res := create E (trace w) r) in *.
  destruct (accepted E expected res); [discriminate Hrun |].
  destruct rest as [| b rest'].
  - cbn [run_schedule fst snd trace] in *. injection Hrun as <-.
    exists (EvCreate r res :: backoff_of res), [], a, [], res.
    rewrite calls_attempt. repeat split; reflexivity.
  - set (w1 := World (session_state w)
                 (trace w ++ EvCreate r res :: backoff_of res)) in *.
    destruct (IH (failure_meta E expected a res) m' w1 ltac:(discriminate) Hrun)
      as (evs & front & c & before & reply & Htrace & Hs & Hcalls & Hm).
    exists ((EvCreate r res :: backoff_of res) ++ evs), (a :: front), c,
      ((r, res) :: before), reply.
    rewrite Htrace, Hs, calls_app, calls_attempt, Hcalls.
    unfold w1. cbn [trace]. rewrite <- !app_assoc.
    repeat split; try reflexivity. exact Hm.
Qed.

Lemma schedule_last (models : list pystr) (front : list (pystr * bool))
    (a : pystr * bool) :
  schedule models = front ++ [a] ->
  exists earlier, models = earlier ++ [fst a] /\ snd a = true.
Proof.
  intros H.
  destruct (exists_last (l := models)) as (earlier & model_name & ->).
  { intros ->. destruct front; discriminate H. }
  unfold schedule in H. rewrite flat_map_app in H. cbn [flat_map app] in H.
  change ([(model_name, false); (model_name, true)])
    with ([(model_name, false)] ++ [(model_name, true)]) in H.
  rewrite !app_assoc in H. apply app_inj_tail in H.
  destruct H as (_ & <-). exists earlier. split; reflexivity.
Qed.

(** X5.  When a call that is not served from the cache ends without an
    accepted attempt, the status it returns is that of the last attempt
    only: it names the last model of the list, and its reason is the error
    text of the last call if that call raised, else the count of scenario
    lines of the last reply in strict mode.  Failures of earlier attempts
    are overwritten, and the reason is never [not attempted]. *)
Theorem fallback_status_is_last_failure (E : runtime) (prompt : pystr)
    (defaults : list pystr) (model_candidates : option (list pystr))
    (force_refresh : bool) (w : world) :
  (if force_refresh then None
   else session_state w !! cache_key_of E prompt (length defaults)) = None ->
  let res :=
    ai_generate_questions E prompt defaults model_candidates force_refresh w in
  ai_ok (snd (fst res)) = false ->
  exists evs before earlier last_model reply,
    trace (snd res) = trace w ++ evs /\
    models_of model_candidates = earlier ++ [last_model] /\
    calls evs
    = before ++ [(request_of prompt (length defaults) (last_model, true),
                  reply)] /\
    snd (fst res)
    = failure_meta E (length defaults) (last_model, true) reply.
Proof.
  intros Hmiss. cbv zeta. unfold ai_generate_questions. rewrite Hmiss.
  rewrite model_loop_schedule.
  pose proof (run_schedule_last_failure E prompt
                (cache_key_of E prompt (length defaults)) (length defaults)
                (schedule (models_of model_candidates))
                (Meta None false (str "not attempted"))) as Hlast.
  pose proof (run_schedule_spec E prompt
                (cache_key_of E prompt (length defaults)) (length defaults)
                (schedule (models_of model_candidates))
                (Meta None false (str "not attempted")) w eq_refl)
    as (evs0 & _ & Hrun).
  destruct (run_schedule E prompt (length defaults)
              (cache_key_of E prompt (length defaults))
              (schedule (models_of model_candidates))
              (Meta None false (str "not attempted")) w)
    as [[o | m'] w'] eqn:Hrs; cbn [fst snd] in *; intros Hno.
  - destruct Hrun as ((pre & a & post & before & reply & _ & _ & _ & _ & Hacc
                       & ->) & _).
    apply (accepted_outcome_good E (length defaults) a) in Hacc.
    destruct Hacc as (_ & Hok & _). congruence.
  - specialize (Hlast m' w).
    rewrite Hrs in Hlast. cbn [fst snd] in Hlast.
    destruct Hlast as (evs & front & a & before & reply & Htrace & Hs & Hcalls
                       & Hm); [| reflexivity |].
    { pose proof (schedule_nonempty model_candidates) as Hlen.
      intros Hnil. rewrite Hnil in Hlen. cbn in Hlen. lia. }
    destruct (schedule_last _ _ _ Hs) as (earlier & Hmodels & Hstrict).
    destruct a as [last_model strict]. cbn [fst snd] in *. subst strict.
    exists evs, before, earlier, last_model, reply.
    unfold cache_store. cbn [trace].
    repeat split; assumption.
Qed.

(** [fallback_status_is_last_failure] with a service whose every call
    raises: the status names the third default model and the error. *)
Lemma fallback_status_is_last_failure_witness :
  exists evs before earlier last_model reply,
    trace (snd (ai_generate_questions failing_runtime (str "p")
                  [str "Do you worry?"] None false empty_world))
    = trace empty_world ++ evs /\
    models_of None = earlier ++ [last_model] /\
    calls evs
    = before ++ [(request_of (str "p") 1 (last_model, true), reply)] /\
    snd (fst (ai_generate_questions failing_runtime (str "p")
                [str "Do you worry?"] None false empty_world))
    = failure_meta failing_runtime 1 (last_model, true) reply.
Proof.
  apply (fallback_status_is_last_failure failing_runtime (str "p")
           [str "Do you worry?"] None false empty_world).
  - apply lookup_empty.
  - vm_compute. reflexivity.
Defined.




(** ** Normalised lines *)

Lemma lstrip_by_head (p : N -> bool) (s : pystr) :
  match lstrip_by p s with
  | [] => True
  | c :: _ => p c = false
  end.
Proof.
  induction s as [| c s IH]; cbn [lstrip_by]; [exact I |].
  destruct (p c) eqn:Hc; [exact IH | exact Hc].
Qed.

Lemma lstrip_by_fixed (p : N -> bool) (s : pystr) :
  match s with
  | [] => True
  | c :: _ => p c = false
  end ->
  lstrip_by p s = s.
Proof.
  destruct s as [| c s]; [reflexivity |].
  intros Hc. cbn [lstrip_by]. rewrite Hc. reflexivity.
Qed.

Lemma lstrip_by_suffix (p : N -> bool) (s : pystr) :
  exists dropped, s = dropped ++ lstrip_by p s.
Proof.
  induction s as [| c s (dropped & IH)]; [exists []; reflexivity |].
  cbn [lstrip_by]. destruct (p c).
  - exists (c :: dropped). cbn [app]. rewrite <- IH. reflexivity.
  - exists []. reflexivity.
Qed.

Lemma rstrip_by_prefix (p : N -> bool) (s : pystr) :
  exists dropped, s = rstrip_by p s ++ dropped.
Proof.
  unfold rstrip_by.
  destruct (lstrip_by_suffix p (rev s)) as (dropped & H).
  exists (rev dropped).
  rewrite <- rev_app_distr, <- H, rev_involutive. reflexivity.
Qed.

Lemma rstrip_by_fixed (p : N -> bool) (s : pystr) :
  rstrip_by p (rstrip_by p s) = rstrip_by p s.
Proof.
  unfold rstrip_by. rewrite rev_involutive.
  rewrite (lstrip_by_fixed p (lstrip_by p (rev s))); [reflexivity |].
  apply lstrip_by_head.
Qed.

Lemma strip_fixed (s : pystr) : strip (strip s) = strip s.
Proof.
  unfold strip.
  rewrite (lstrip_by_fixed py_isspace
             (rstrip_by py_isspace (lstrip_by py_isspace s))).
  - apply rstrip_by_fixed.
  - destruct (rstrip_by_prefix py_isspace (lstrip_by py_isspace s))
      as (dropped & H).
    pose proof (lstrip_by_head py_isspace s) as Hhead.
    destruct (rstrip_by py_isspace (lstrip_by py_isspace s)) as [| c u];
      [exact I |].
    rewrite H in Hhead. exact Hhead.
Qed.

Lemma strip_In (c : N) (s : pystr) : In c (strip s) -> In c s.
Proof.
  unfold strip. intros H.
  destruct (rstrip_by_prefix py_isspace (lstrip_by py_isspace s))
    as (d1 & H1).
  destruct (lstrip_by_suffix py_isspace s) as (d2 & H2).
  rewrite H2, H1. apply in_or_app. right. apply in_or_app. left. exact H.
Qed.

Lemma lstrip_chars_In (chars : pystr) (c : N) (s : pystr) :
  In c (lstrip_chars chars s) -> In c s.
Proof.
  unfold lstrip_chars. intros H.
  destruct (lstrip_by_suffix (in_chars chars) s) as (d & Hd).
  rewrite Hd. apply in_or_app. right. exact H.
Qed.

Lemma split_on_no_sep (sep : N) (s piece : pystr) :
  In piece (split_on sep s) -> ~ In sep piece.
Proof.
  revert piece.
  induction s as [| c s IH]; intros piece Hin; cbn [split_on] in Hin.
  - destruct Hin as [<- | []]. intros [].
  - destruct (N.eqb_spec c sep) as [-> | Hne].
    + destruct Hin as [<- | Hin]; [intros [] | apply IH, Hin].
    + destruct (split_on sep s) as [| h t] eqn:Hsplit.
      * destruct Hin as [<- | []]. intros [H | []]. congruence.
      * destruct Hin as [<- | Hin].
        -- intros [H | H]; [congruence |].
           apply (IH h); [left; reflexivity | exact H].
        -- apply IH. right. exact Hin.
Qed.

(** X7.  Every line that the normalisation of lines 118-119 produces, and
    so every scenario line and every question of an accepted attempt, is a
    single line without surrounding white space: it holds no line feed and
    stripping it again changes nothing. *)
Theorem cleaned_lines_are_trimmed_single_lines (E : runtime) (text : pystr)
    (expected : nat) (a : pystr * bool) (reply : option pystr) :
  Forall (fun q => strip q = q /\ ~ In 10%N q) (cleaned_lines text) /\
  Forall (fun q => strip q = q /\ ~ In 10%N q) (scenario_lines E text) /\
  Forall (fun q => strip q = q /\ ~ In 10%N q)
    (fst (accepted_outcome E expected a (Returned reply))).
Proof.
  assert (Hclean : forall t,
            Forall (fun q => strip q = q /\ ~ In 10%N q) (cleaned_lines t)).
  { intros t. apply List.Forall_forall. intros q Hq.
    unfold cleaned_lines in Hq. apply in_map_iff in Hq.
    destruct Hq as (ln & <- & Hln).
    split; [apply strip_fixed |].
    intros Hnl. apply strip_In, lstrip_chars_In in Hnl.
    unfold reply_lines in Hln. apply in_map_iff in Hln.
    destruct Hln as (raw & <- & Hraw). apply filter_In in Hraw.
    destruct Hraw as (Hraw & _).
    apply strip_In in Hnl. exact (split_on_no_sep _ _ _ Hraw Hnl). }
  assert (Hscen : forall t,
            Forall (fun q => strip q = q /\ ~ In 10%N q) (scenario_lines E t)).
  { intros t. apply List.Forall_forall. intros q Hq.
    unfold scenario_lines in Hq. apply filter_In in Hq.
    destruct Hq as (Hq & _).
    pose proof (Hclean t) as Hall. rewrite List.Forall_forall in Hall.
    apply Hall, Hq. }
  split; [apply Hclean |]. split; [apply Hscen |].
  cbn [accepted_outcome fst]. apply Forall_take, Hscen.
Qed.

(** X8.  A reply can only be accepted if it has at least as many non-blank
    lines as there are default items: the scenario lines are some of the
    cleaned lines, one per non-blank line of the reply. *)
Theorem accepted_needs_enough_lines (E : runtime) (expected : nat)
    (reply : option pystr) :
  accepted E expected (Returned reply) = true ->
  (expected <= length (scenario_lines E (reply_text reply))
            <= length (reply_lines (reply_text reply)))%nat.
Proof.
  cbn [accepted]. intros Hacc. apply Nat.leb_le in Hacc.
  split; [exact Hacc |].
  unfold scenario_lines, cleaned_lines.
  etransitivity; [apply List.filter_length_le |].
  rewrite length_map. reflexivity.
Qed.

(** [accepted_needs_enough_lines] on the two-line reply and two items. *)
Lemma accepted_needs_enough_lines_witness :
  (2 <= length (scenario_lines chatty_runtime
                  (reply_text (Some two_line_reply)))
     <= length (reply_lines (reply_text (Some two_line_reply))))%nat.
Proof.
  apply (accepted_needs_enough_lines chatty_runtime 2 (Some two_line_reply)).
  reflexivity.
Defined.

(** X9.  Patching the defaults is idempotent: a patched default is
    situational, so patching it again returns it unchanged, and the
    fallback questions fed back as defaults give the same questions. *)
Theorem fix_default_idempotent (E : runtime) (defaults : list pystr) :
  Forall (fun q => fix_default E (fix_default E q) = fix_default E q) defaults
  /\
  List.map (fix_default E) (List.map (fix_default E) defaults)
  = List.map (fix_default E) defaults.
Proof.
  assert (Hidem : forall q,
            fix_default E (fix_default E q) = fix_default E q).
  { intros q. pose proof (fix_default_situational E q) as Hsit.
    apply looks_situational_spec in Hsit.
    unfold fix_default at 1. rewrite Hsit. reflexivity. }
  split.
  - apply List.Forall_forall. intros q _. apply Hidem.
  - rewrite List.map_map. apply List.map_ext. exact Hidem.
Qed.

(** ** Scores *)

Lemma score_map_get_some (response : pystr) :
  (exists points, score_map_get response = Some points)
  <-> In response emoji_options.
Proof.
  split.
  - intros (points & H). unfold score_map_get in H.
    destruct (List.find _ score_map) as [kv |] eqn:Hfind; [| discriminate H].
    apply find_some in Hfind. destruct Hfind as (Hin & Heq).
    apply bool_decide_eq_true in Heq. subst response.
    unfold emoji_options. apply in_map, Hin.
  - intros Hin. destruct (score_map_get_option response Hin) as (p & Hp & _).
    exists p. exact Hp.
Qed.

Lemma score_loop_points_sum (select_slider : pystr -> pystr -> pystr)
    (prefix : pystr) (questions : list pystr) :
  forall (i : nat) (score : Z),
    score_loop select_slider prefix i questions score
    = match points_sum (answers select_slider prefix i questions) with
      | Some total => Some (score + total)
      | None => None
      end.
Proof.
  induction questions as [| q rest IH]; intros i score;
    cbn [score_loop answers points_sum].
  - f_equal. lia.
  - destruct (score_map_get _) as [p |]; [| reflexivity].
    rewrite IH.
    destruct (points_sum (answers select_slider prefix (S i) rest));
      [f_equal; lia | reflexivity].
Qed.

Lemma points_sum_some (responses : list pystr) :
  (exists total, points_sum responses = Some total)
  <-> Forall (fun r => In r emoji_options) responses.
Proof.
  induction responses as [| r rest IH]; cbn [points_sum].
  - split; [constructor | exists 0; reflexivity].
  - split.
    + intros (total & H).
      destruct (score_map_get r) as [p |] eqn:Hr; [| discriminate H].
      destruct (points_sum rest) as [s |]; [| discriminate H].
      constructor.
      * apply score_map_get_some. exists p. exact Hr.
      * apply IH. exists s. reflexivity.
    + intros Hall. inversion Hall as [| x l Hx Hrest]; subst.
      apply score_map_get_some in Hx. destruct Hx as (p & ->).
      apply IH in Hrest. destruct Hrest as (s & ->).
      exists (p + s). reflexivity.
Qed.

Lemma answers_length (select_slider : pystr -> pystr -> pystr)
    (prefix : pystr) (i : nat) (questions : list pystr) :
  length (answers select_slider prefix i questions) = length questions.
Proof.
  revert i.
  induction questions as [| q rest IH]; intros i; cbn [answers length];
    [reflexivity | rewrite IH; reflexivity].
Qed.

Lemma answers_valid (select_slider : pystr -> pystr -> pystr)
    (prefix : pystr) (i : nat) (questions : list pystr) :
  (forall label key, In (select_slider label key) emoji_options) ->
  Forall (fun r => In r emoji_options)
    (answers select_slider prefix i questions).
Proof.
  intros Hvalid. revert i.
  induction questions as [| q rest IH]; intros i; cbn [answers].
  - constructor.
  - constructor; [apply Hvalid | apply IH].
Qed.

Lemma screener_score_points_sum (select_slider : pystr -> pystr -> pystr)
    (prefix : pystr) (questions : list pystr) :
  screener_score select_slider prefix questions
  = points_sum (answers select_slider prefix 0 questions).
Proof.
  unfold screener_score. rewrite score_loop_points_sum.
  destruct (points_sum _); [f_equal; lia | reflexivity].
Qed.

(** X10.  A screener score is the sum of the points of the answers, in
    question order, and the summing fails with [KeyError] exactly when some
    slider hands back a text that is not one of the four options. *)
Theorem score_is_sum_or_key_error (select_slider : pystr -> pystr -> pystr)
    (prefix : pystr) (questions : list pystr) :
  screener_score select_slider prefix questions
  = points_sum (answers select_slider prefix 0 questions) /\
  length (answers select_slider prefix 0 questions) = length questions /\
  ((exists score, screener_score select_slider prefix questions = Some score)
   <-> Forall (fun r => In r emoji_options)
         (answers select_slider prefix 0 questions)).
Proof.
  pose proof (screener_score_points_sum select_slider prefix questions)
    as Heq.
  split; [exact Heq |]. split.
  - apply answers_length.
  - rewrite Heq. apply points_sum_some.
Qed.

Lemma points_sum_extremes (responses : list pystr) :
  Forall (fun r => In r emoji_options) responses ->
  exists total,
    points_sum responses = Some total /\
    0 <= total <= 3 * Z.of_nat (length responses) /\
    (total = 0
     <-> Forall (eq ([128516%N] ++ str " Not at all")) responses) /\
    (total = 3 * Z.of_nat (length responses)
     <-> Forall (eq ([128543%N] ++ str " Nearly every day")) responses).
Proof.
  induction responses as [| r rest IH]; intros Hall.
  - exists 0. cbn. repeat split; try lia; constructor.
  - inversion Hall as [| x l Hr Hrest]; subst.
    destruct (IH Hrest) as (s & Hs & Hb & Hzero & Hfull).
    cbn [points_sum length]. rewrite Hs.
    unfold emoji_options in Hr. cbn [List.map score_map fst] in Hr.
    destruct Hr as [<- | [<- | [<- | [<- | []]]]];
      (eexists; split; [vm_compute score_map_get; reflexivity |]);
      (split; [lia |]); split; split; intros H;
      try (inversion H as [| y l' Hy Hl']; subst);
      try (exfalso; lia);
      try (exfalso; vm_compute in Hy; discriminate Hy);
      try (constructor; [reflexivity |]);
      try (apply Hzero; lia); try (apply Hfull; lia);
      try (apply Hzero in Hl'; lia); try (apply Hfull in Hl'; lia).
Qed.

(** X11.  With answers taken from the four options, a score is 0 only if
    every answer is [Not at all], and it reaches three times the number of
    questions (21 or 27 for a full battery) only if every answer is
    [Nearly every day]. *)
Theorem score_extremes (select_slider : pystr -> pystr -> pystr)
    (prefix : pystr) (questions : list pystr) :
  (forall label key, In (select_slider label key) emoji_options) ->
  (screener_score select_slider prefix questions = Some 0
   <-> Forall (eq ([128516%N] ++ str " Not at all"))
         (answers select_slider prefix 0 questions)) /\
  (screener_score select_slider prefix questions
   = Some (3 * Z.of_nat (length questions))
   <-> Forall (eq ([128543%N] ++ str " Nearly every day"))
         (answers select_slider prefix 0 questions)).
Proof.
  intros Hvalid.
  pose proof (screener_score_points_sum select_slider prefix questions)
    as Heq.
  pose proof (answers_length select_slider prefix 0 questions) as Hlen.
  pose proof (answers_valid select_slider prefix 0 questions Hvalid) as Hall.
  destruct (points_sum_extremes _ Hall) as (total & Hsum & _ & Hzero & Hfull).
  rewrite Heq, Hsum. rewrite Hlen in Hfull.
  split; split; intros H.
  - apply Hzero. congruence.
  - f_equal. apply Hzero, H.
  - apply Hfull. congruence.
  - f_equal. apply Hfull, H.
Qed.

(** [score_extremes] with every slider on its first option. *)
Lemma score_extremes_witness :
  screener_score first_option (str "gad_") Combined.gad_questions = Some 0
  <-> Forall (eq ([128516%N] ++ str " Not at all"))
        (answers first_option (str "gad_") 0 Combined.gad_questions).
Proof.
  refine (proj1 (score_extremes first_option (str "gad_")
                   Combined.gad_questions _)).
  intros label key. left. reflexivity.
Defined.

(** ** Results, badge and progress *)



(** The three badges and the readings of the two result chains, as
    conditions on the scores. *)
Ltac badge_conditions :=
  repeat split; intros;
  score_cases; cbn [andb orb] in *;
  try reflexivity; try lia; try discriminate.

Ltac reading_conditions :=
  repeat split; intros; score_cases; cbn [fst urgency] in *;
  try lia; try (vm_compute; reflexivity);
  try match goal with
    | H : @eq (alert * list N) _ _ |- _ =>
        exfalso; vm_compute in H; discriminate H
    end.

Lemma gamified_badge_conditions (phq_score gad_score : Z) :
  (Gamified.badge phq_score gad_score = Gamified.mindful_mover
   <-> phq_score < 10 /\ gad_score < 10) /\
  (Gamified.badge phq_score gad_score = Gamified.resilience_builder
   <-> 10 <= phq_score < 15 \/ 10 <= gad_score < 15) /\
  (Gamified.badge phq_score gad_score = Gamified.courageous_warrior
   <-> ~ (phq_score < 10 /\ gad_score < 10) /\
       ~ (10 <= phq_score < 15 \/ 10 <= gad_score < 15)).
Proof. unfold Gamified.badge. badge_conditions. Qed.

Lemma combined_badge_conditions (phq_score gad_score : Z) :
  (Combined.badge phq_score gad_score = Combined.mindful_mover
   <-> phq_score < 10 /\ gad_score < 10) /\
  (Combined.badge phq_score gad_score = Combined.resilience_builder
   <-> 10 <= phq_score < 15 \/ 10 <= gad_score < 15) /\
  (Combined.badge phq_score gad_score = Combined.courageous_warrior
   <-> ~ (phq_score < 10 /\ gad_score < 10) /\
       ~ (10 <= phq_score < 15 \/ 10 <= gad_score < 15)).
Proof. unfold Combined.badge. badge_conditions. Qed.

Lemma gamified_gad_readings (score : Z) :
  ((urgency (fst (Gamified.gad_result score)) <= 1)%nat <-> score < 10) /\
  (Gamified.gad_result score = Gamified.gad_result 10
   <-> 10 <= score < 15) /\
  (Gamified.gad_result score = Gamified.gad_result 15 <-> 15 <= score).
Proof. unfold Gamified.gad_result at 1 2 4. reading_conditions. Qed.

Lemma gamified_phq_readings (score : Z) :
  ((urgency (fst (Gamified.phq_result score)) <= 1)%nat <-> score < 10) /\
  (Gamified.phq_result score = Gamified.phq_result 10
   <-> 10 <= score < 15) /\
  ((2 <= urgency (fst (Gamified.phq_result score)))%nat <-> 10 <= score).
Proof. unfold Gamified.phq_result at 1 2 4. reading_conditions. Qed.

Lemma combined_gad_readings (score : Z) :
  ((urgency (fst (Combined.gad_result score)) <= 1)%nat <-> score < 10) /\
  (Combined.gad_result score = Combined.gad_result 10
   <-> 10 <= score < 15) /\
  (Combined.gad_result score = Combined.gad_result 15 <-> 15 <= score).
Proof. unfold Combined.gad_result at 1 2 4. reading_conditions. Qed.

Lemma combined_phq_readings (score : Z) :
  ((urgency (fst (Combined.phq_result score)) <= 1)%nat <-> score < 10) /\
  (Combined.phq_result score = Combined.phq_result 10
   <-> 10 <= score < 15) /\
  ((2 <= urgency (fst (Combined.phq_result score)))%nat <-> 10 <= score).
Proof. unfold Combined.phq_result at 1 2 4. reading_conditions. Qed.

(** X13.  The badge agrees with the two result panels: Mindful Mover
    exactly when both screeners read Minimal or Mild; Resilience Builder
    exactly when at least one screener reads Moderate, whatever the other
    one reads (a Severe result on the other included); Courageous Warrior
    exactly when no screener reads Moderate and anxiety reads Severe or
    depression is shown as a warning or an error. *)
Theorem badge_agrees_with_results (phq_score gad_score : Z) :
  (Gamified.badge phq_score gad_score = Gamified.mindful_mover
   <-> (urgency (fst (Gamified.gad_result gad_score)) <= 1)%nat /\
       (urgency (fst (Gamified.phq_result phq_score)) <= 1)%nat) /\
  (Gamified.badge phq_score gad_score = Gamified.resilience_builder
   <-> Gamified.gad_result gad_score = Gamified.gad_result 10 \/
       Gamified.phq_result phq_score = Gamified.phq_result 10) /\
  (Gamified.badge phq_score gad_score = Gamified.courageous_warrior
   <-> (Gamified.gad_result gad_score <> Gamified.gad_result 10 /\
        Gamified.phq_result phq_score <> Gamified.phq_result 10) /\
       (Gamified.gad_result gad_score = Gamified.gad_result 15 \/
        (2 <= urgency (fst (Gamified.phq_result phq_score)))%nat)) /\
  (Combined.badge phq_score gad_score = Combined.mindful_mover
   <-> (urgency (fst (Combined.gad_result gad_score)) <= 1)%nat /\
       (urgency (fst (Combined.phq_result phq_score)) <= 1)%nat) /\
  (Combined.badge phq_score gad_score = Combined.resilience_builder
   <-> Combined.gad_result gad_score = Combined.gad_result 10 \/
       Combined.phq_result phq_score = Combined.phq_result 10) /\
  (Combined.badge phq_score gad_score = Combined.courageous_warrior
   <-> (Combined.gad_result gad_score <> Combined.gad_result 10 /\
        Combined.phq_result phq_score <> Combined.phq_result 10) /\
       (Combined.gad_result gad_score = Combined.gad_result 15 \/
        (2 <= urgency (fst (Combined.phq_result phq_score)))%nat)).
Proof.
  destruct (gamified_badge_conditions phq_score gad_score) as (Hb1 & Hb2 & Hb3).
  destruct (combined_badge_conditions phq_score gad_score) as (Hc1 & Hc2 & Hc3).
  destruct (gamified_gad_readings gad_score) as (Hg1 & Hg2 & Hg3).
  destruct (gamified_phq_readings phq_score) as (Hp1 & Hp2 & Hp3).
  destruct (combined_gad_readings gad_score) as (Hg1' & Hg2' & Hg3').
  destruct (combined_phq_readings phq_score) as (Hp1' & Hp2' & Hp3').
  rewrite Hb1, Hb2, Hb3, Hc1, Hc2, Hc3, Hg1, Hg2, Hg3, Hp1, Hp2, Hp3,
    Hg1', Hg2', Hg3', Hp1', Hp2', Hp3'.
  clear Hb1 Hb2 Hb3 Hc1 Hc2 Hc3 Hg1 Hg2 Hg3 Hp1 Hp2 Hp3
    Hg1' Hg2' Hg3' Hp1' Hp2' Hp3'.
  repeat split; lia.
Qed.

(** X14.  A higher score never gets a milder panel: in both scripts and
    for every integer, also outside the range of the questionnaire, the
    urgency of the anxiety and of the depression result grows with the
    score. *)
Theorem results_are_monotone (score score' : Z) :
  score <= score' ->
  (urgency (fst (Gamified.gad_result score))
   <= urgency (fst (Gamified.gad_result score')))%nat /\
  (urgency (fst (Gamified.phq_result score))
   <= urgency (fst (Gamified.phq_result score')))%nat /\
  (urgency (fst (Combined.gad_result score))
   <= urgency (fst (Combined.gad_result score')))%nat /\
  (urgency (fst (Combined.phq_result score))
   <= urgency (fst (Combined.phq_result score')))%nat.
Proof.
  intros Hle.
  unfold Gamified.gad_result, Gamified.phq_result,
    Combined.gad_result, Combined.phq_result.
  repeat split; score_cases; cbn [fst urgency]; lia.
Qed.

(** [results_are_monotone] between a mild and a severe score. *)
Lemma results_are_monotone_witness :
  (urgency (fst (Gamified.gad_result 7))
   <= urgency (fst (Gamified.gad_result 16)))%nat.
Proof.
  refine (proj1 (results_are_monotone 7 16 _)). lia.
Defined.

(** ** Mood check *)

Lemma lookup_tips_none (suggestions : list (pystr * list pystr))
    (emotion : pystr) :
  ~ In emotion (List.map fst suggestions) ->
  lookup_tips suggestions emotion = None.
Proof.
  intros Hnot. unfold lookup_tips.
  destruct (List.find _ suggestions) as [kv |] eqn:Hfind; [| reflexivity].
  apply find_some in Hfind. destruct Hfind as (Hin & Heq).
  apply bool_decide_eq_true in Heq. subst emotion.
  exfalso. apply Hnot. apply in_map, Hin.
Qed.

(** X15.  In both scripts every emotion the select box offers has its
    tips: for the placeholder nothing is shown, for each of the seven
    emotions a subheader and three bullets, and the dictionary lookup raises
    [KeyError] only for a text that the select box cannot hand back. *)
Theorem every_emotion_has_tips (emotion : pystr) :
  (coping_panel GamifiedPage.suggestions emotion = None
   <-> ~ In emotion emotion_options) /\
  (coping_panel CombinedPage.suggestions emotion = None
   <-> ~ In emotion emotion_options) /\
  (In emotion emotion_options ->
   exists shown shown',
     coping_panel GamifiedPage.suggestions emotion = Some shown /\
     coping_panel CombinedPage.suggestions emotion = Some shown' /\
     length shown = length shown' /\
     length shown = if bool_decide (emotion = str "Select...") then 0%nat
                    else 4%nat).
Proof.
  assert (Hin : In emotion emotion_options ->
                exists shown shown',
                  coping_panel GamifiedPage.suggestions emotion = Some shown /\
                  coping_panel CombinedPage.suggestions emotion = Some shown' /\
                  length shown = length shown' /\
                  length shown
                  = if bool_decide (emotion = str "Select...") then 0%nat
                    else 4%nat).
  { unfold emotion_options. cbn [In].
    intros [<- | [<- | [<- | [<- | [<- | [<- | [<- | [<- | []]]]]]]]];
      eexists; eexists; (split; [vm_compute; reflexivity |]);
      (split; [vm_compute; reflexivity |]); split; reflexivity. }
  assert (Hout : forall suggestions,
            List.map fst suggestions = List.tl emotion_options ->
            ~ In emotion emotion_options ->
            coping_panel suggestions emotion = None).
  { intros suggestions Hkeys Hnot. unfold coping_panel.
    rewrite lookup_tips_none.
    - destruct (decide (emotion = str "Select...")) as [He | He].
      + exfalso. apply Hnot. left. symmetry. exact He.
      + rewrite bool_decide_eq_true_2 by exact He. reflexivity.
    - rewrite Hkeys. intros Htl. apply Hnot. right. exact Htl. }
  split; [| split; [| exact Hin]].
  - split.
    + intros Hnone Hopt. destruct (Hin Hopt) as (s & s' & Hs & _). congruence.
    + apply Hout. reflexivity.
  - split.
    + intros Hnone Hopt. destruct (Hin Hopt) as (s & s' & _ & Hs' & _).
      congruence.
    + apply Hout. reflexivity.
Qed.

(** ** Edge cases of the rewriter *)

(** X16.  The status of a call that was not served from the cache always
    names one of the candidate models (the given list, or the three default
    models when the list is missing or empty), whether the outcome was
    accepted or is the fallback. *)
Theorem status_names_a_candidate_model (E : runtime) (prompt : pystr)
    (defaults : list pystr) (model_candidates : option (list pystr))
    (force_refresh : bool) (w : world) :
  (if force_refresh then None
   else session_state w !! cache_key_of E prompt (length defaults)) = None ->
  exists model_name,
    used_model
      (snd (fst (ai_generate_questions E prompt defaults model_candidates
                   force_refresh w)))
    = Some model_name /\
    In model_name (models_of model_candidates).
Proof.
  intros Hmiss.
  assert (Hsched : forall a,
            In a (schedule (models_of model_candidates)) ->
            In (fst a) (models_of model_candidates)).
  { intros a Ha. unfold schedule in Ha. apply in_flat_map in Ha.
    destruct Ha as (m & Hm & [<- | [<- | []]]); exact Hm. }
  destruct (rewrite_miss E prompt defaults model_candidates force_refresh w
              Hmiss) as (evs & _ & _ & Hcases).
  destruct Hcases as [(_ & Hstop) | (_ & _ & (a & Ha & Hused) & _)].
  - destruct Hstop as (pre & a & post & before & reply & Hs & _ & _ & _ & Hacc
                       & ->).
    exists (fst a). split.
    + apply accepted_outcome_good, Hacc.
    + apply Hsched. rewrite Hs. apply in_or_app. right. left. reflexivity.
  - exists (fst a). split; [exact Hused | apply Hsched, Ha].
Qed.

(** [status_names_a_candidate_model] on a fresh session. *)
Lemma status_names_a_candidate_model_witness :
  exists model_name,
    used_model
      (snd (fst (ai_generate_questions failing_runtime (str "p")
                   [str "Do you worry?"] (Some []) false empty_world)))
    = Some model_name /\
    In model_name (models_of (Some [])).
Proof.
  apply (status_names_a_candidate_model failing_runtime (str "p")
           [str "Do you worry?"] (Some []) false empty_world).
  apply lookup_empty.
Defined.



Lemma filter_sublist {A : Type} (f : A -> bool) (l : list A) :
  sublist (List.filter f l) l.
Proof.
  induction l as [| x l IH]; cbn [List.filter]; [constructor |].
  destruct (f x); [apply sublist_skip | apply sublist_cons]; exact IH.
Qed.

(** X18.  The questions of an accepted attempt are lines of the reply: they
    are cleaned lines of the reply text, in the order of the reply, none
    repeated or made up; the reply's lines beyond the first [expected]
    scenario lines are dropped. *)
Theorem accepted_questions_come_from_reply (E : runtime) (expected : nat)
    (a : pystr * bool) (reply : option pystr) :
  sublist (fst (accepted_outcome E expected a (Returned reply)))
    (cleaned_lines (reply_text reply)) /\
  exists dropped,
    scenario_lines E (reply_text reply)
    = fst (accepted_outcome E expected a (Returned reply)) ++ dropped.
Proof.
  cbn [accepted_outcome fst]. split.
  - transitivity (scenario_lines E (reply_text reply)).
    + apply sublist_take.
    + apply filter_sublist.
  - exists (skipn expected (scenario_lines E (reply_text reply))).
    symmetry. apply firstn_skipn.
Qed.
